(** * Wi-Fi provisioning lifecycle of [main/wifi_setup.c]

    A shallow embedding of the three functions of the translation unit
    ([provisioning_timer_delete], [provisioning_timer_handler],
    [wifi_prov_event_handler] and [setup_wifi]) over an explicit model of
    the platform services they call, followed by the properties of the
    provisioning session, of the credential reconciliation and of the
    device name. *)

From Stdlib Require Import ZArith List String Ascii Bool Lia.
From Stdlib.Strings Require Import Byte.
From stdpp Require Import base gmap strings pretty.

Local Open Scope string_scope.
Local Open Scope Z_scope.

(** ** C strings and [snprintf] *)

(** The C string held by a [char] buffer: the characters before the first
    NUL. *)
Fixpoint c_str (buf : string) : string :=
  match buf with
  | EmptyString => EmptyString
  | String c rest =>
      if Ascii.eqb c Ascii.zero then EmptyString else String c (c_str rest)
  end.

(** The first [n] characters of [s] (all of [s] when it is shorter). *)
Fixpoint str_take (n : nat) (s : string) : string :=
  match n, s with
  | O, _ => EmptyString
  | S _, EmptyString => EmptyString
  | S n', String c rest => String c (str_take n' rest)
  end.

(** [snprintf(buf, size, ...)] stores at most [size - 1] characters of the
    formatted text (and the terminating NUL). *)
Definition snprintf (size : nat) (formatted : string) : string :=
  str_take (size - 1) formatted.

(** Conversion [%.Ns]: at most [prec] characters of the C string. *)
Definition fmt_s_prec (prec : nat) (buf : string) : string :=
  str_take prec (c_str buf).

(** Conversion [%d] of an [int]. *)
Definition fmt_d (n : Z) : string := pretty n.

Definition hex_char (d : Z) : ascii :=
  match String.get (Z.to_nat d) "0123456789abcdef" with
  | Some c => c
  | None => "?"%char
  end.

(** The sixteen hexadecimal digits of a 64-bit value, most significant
    first. *)
Definition hex_digits64 (n : Z) : list Z :=
  List.map (fun i => Z.land (Z.shiftr n (4 * i)) 15)
    [15; 14; 13; 12; 11; 10; 9; 8; 7; 6; 5; 4; 3; 2; 1; 0].

(** Leading zero digits are dropped as long as [width] digits remain. *)
Fixpoint drop_leading_zeros (width : nat) (ds : list Z) : list Z :=
  match ds with
  | d :: rest =>
      if (d =? 0) && (width <=? List.length rest)%nat
      then drop_leading_zeros width rest
      else ds
  | [] => []
  end.

Fixpoint string_of_digits (ds : list Z) : string :=
  match ds with
  | [] => EmptyString
  | d :: rest => String (hex_char d) (string_of_digits rest)
  end.

(** Conversion [%0<width>llx] of an [unsigned long long]: lowercase
    hexadecimal, zero-padded on the left to at least [width] digits. *)
Definition fmt_0llx (width : nat) (n : Z) : string :=
  string_of_digits (drop_leading_zeros (Nat.max width 1) (hex_digits64 (n mod 2 ^ 64))).

(** ** Device identity (lines 89-95 and 129-130 of [setup_wifi]) *)

Definition byte_to_Z (b : byte) : Z := Z.of_N (Byte.to_N b).

(** Value of a little-endian byte sequence, as the target reads a
    [uint64_t] from memory. *)
Fixpoint le_decode (bs : list byte) : Z :=
  match bs with
  | [] => 0
  | b :: rest => byte_to_Z b + 256 * le_decode rest
  end.

(** [uint64_t mac = 0; esp_efuse_mac_get_default((uint8_t * )&mac)]: the six
    bytes of the factory address overwrite the first six bytes of the
    zeroed eight-byte object. *)
Definition mac_object (hw : list byte) : list byte :=
  let written := firstn 6 hw in
  written ++ skipn (List.length written) (repeat x00 8).

Definition mac_value (hw : list byte) : Z := le_decode (mac_object hw).

(** [char device_name[33]; snprintf(device_name, sizeof(device_name),
    "%.25s-%06llx", app_info.project_name, mac)]. *)
Definition device_name_of (project_name : string) (mac : Z) : string :=
  snprintf 33 (fmt_s_prec 25 project_name +:+ "-" +:+ fmt_0llx 6 mac).

(** [char service_name[sizeof(device_name) + 5];
    snprintf(service_name, sizeof(service_name), "PROV_%s", device_name)]. *)
Definition service_name_of (device_name : string) : string :=
  snprintf (33 + 5) ("PROV_" +:+ c_str device_name).

(** ** Platform data *)

Inductive esp_err_t :=
| ESP_OK
| ESP_FAIL
| ESP_ERR_NO_MEM
| ESP_ERR_INVALID_ARG
| ESP_ERR_INVALID_STATE.

(** The station part of [wifi_config_t]: [sta.ssid] and [sta.password]
    (byte arrays, held as the strings of their bytes). *)
Record wifi_config_t := mk_wifi_config {
  sta_ssid : string;
  sta_password : string
}.

(** [wifi_config_t cfg = {}]. *)
Definition wifi_config_zero : wifi_config_t :=
  {| sta_ssid := EmptyString; sta_password := EmptyString |}.

(** [cfg.sta.ssid[0] == '\0'] (bytes past the held string are zero). *)
Definition ssid_unset (cfg : wifi_config_t) : bool :=
  match sta_ssid cfg with
  | EmptyString => true
  | String c _ => Ascii.eqb c Ascii.zero
  end.

Inductive wifi_storage_t := WIFI_STORAGE_FLASH | WIFI_STORAGE_RAM.

Inductive wifi_prov_sta_fail_reason_t :=
| WIFI_PROV_STA_AUTH_ERROR
| WIFI_PROV_STA_AP_NOT_FOUND.

(** [wifi_prov_cb_event_t] with the payload [event_data] points to. The
    handler is registered for [ESP_EVENT_ANY_ID], so it also receives the
    two events it has no case for. *)
Inductive wifi_prov_cb_event_t :=
| WIFI_PROV_INIT
| WIFI_PROV_START
| WIFI_PROV_CRED_RECV (wifi_sta_cfg : wifi_config_t)
| WIFI_PROV_CRED_FAIL (reason : wifi_prov_sta_fail_reason_t)
| WIFI_PROV_CRED_SUCCESS
| WIFI_PROV_END
| WIFI_PROV_DEINIT.

Definition esp_timer_handle_t := positive.

(** The only timer callback of the program. *)
Inductive esp_timer_cb_t := cb_provisioning_timer_handler.

(** An allocated [esp_timer]: its creation arguments and, while it is
    armed, the one-shot period in microseconds. *)
Record esp_timer := mk_esp_timer {
  timer_callback : esp_timer_cb_t;
  timer_name : string;
  timer_armed : option Z
}.

(** [t] with its arming replaced. *)
Definition set_timer_armed (v : option Z) (t : esp_timer) : esp_timer :=
  mk_esp_timer (timer_callback t) (timer_name t) v.

(** Provisioning manager: not initialised, initialised, or serving under a
    service name, with a stop possibly requested. *)
Inductive prov_mgr_state :=
| PROV_UNINIT
| PROV_READY
| PROV_RUNNING (service_name : string) (stop_requested : bool).

(** Reconnect collaborator: not started, started and waiting, or resumed
    with the station configuration in force at the time of the call. *)
Inductive reconnect_state :=
| RECONNECT_OFF
| RECONNECT_WAITING
| RECONNECT_RESUMED (cfg : wifi_config_t).

(** What the board reports about itself: the project name of the running
    partition's description (when it can be read) and the factory MAC. *)
Record board_info := mk_board {
  app_project_name : option string;
  efuse_mac : list byte
}.

Inductive log_level := LOG_ERROR | LOG_INFO.

(** Calls into the platform, recorded in the order they are made. *)
Inductive call :=
| c_log (lvl : log_level) (msg : string)
| c_esp_ota_get_partition_description
| c_esp_efuse_mac_get_default
| c_esp_netif_init
| c_esp_netif_create_default_wifi_sta
| c_esp_wifi_init
| c_esp_wifi_set_storage (st : wifi_storage_t)
| c_esp_wifi_set_mode_sta
| c_tcpip_adapter_set_hostname (name : string)
| c_wifi_reconnect_start
| c_wifi_reconnect_resume
| c_esp_wifi_get_config
| c_esp_wifi_set_config (cfg : wifi_config_t)
| c_esp_wifi_start
| c_esp_event_handler_register
| c_wifi_prov_mgr_init
| c_wifi_prov_mgr_is_provisioned
| c_wifi_prov_mgr_start_provisioning (service_name : string)
| c_wifi_prov_mgr_stop_provisioning
| c_wifi_prov_mgr_deinit
| c_esp_timer_create (h : esp_timer_handle_t)
| c_esp_timer_start_once (h : esp_timer_handle_t) (timeout_us : Z)
| c_esp_timer_stop (h : esp_timer_handle_t)
| c_esp_timer_delete (h : esp_timer_handle_t).

(** ** Program state

    The two statics of the translation unit, and the state of the platform
    services behind the calls. [trace] holds the calls made so far, the most
    recent first. *)
Record state := mk_state {
  provisioning_timer : option esp_timer_handle_t;
  startup_wifi_config : wifi_config_t;
  timers : gmap positive esp_timer;
  wifi_config : wifi_config_t;
  wifi_storage : wifi_storage_t;
  wifi_started : bool;
  prov_mgr : prov_mgr_state;
  reconnect : reconnect_state;
  board : board_info;
  trace : list call
}.

Definition set_provisioning_timer (v : option esp_timer_handle_t) (s : state) : state :=
  mk_state v (startup_wifi_config s) (timers s) (wifi_config s) (wifi_storage s)
    (wifi_started s) (prov_mgr s) (reconnect s) (board s) (trace s).

Definition set_startup_wifi_config (v : wifi_config_t) (s : state) : state :=
  mk_state (provisioning_timer s) v (timers s) (wifi_config s) (wifi_storage s)
    (wifi_started s) (prov_mgr s) (reconnect s) (board s) (trace s).

Definition set_timers (v : gmap positive esp_timer) (s : state) : state :=
  mk_state (provisioning_timer s) (startup_wifi_config s) v (wifi_config s) (wifi_storage s)
    (wifi_started s) (prov_mgr s) (reconnect s) (board s) (trace s).

Definition set_wifi_config (v : wifi_config_t) (s : state) : state :=
  mk_state (provisioning_timer s) (startup_wifi_config s) (timers s) v (wifi_storage s)
    (wifi_started s) (prov_mgr s) (reconnect s) (board s) (trace s).

Definition set_wifi_storage (v : wifi_storage_t) (s : state) : state :=
  mk_state (provisioning_timer s) (startup_wifi_config s) (timers s) (wifi_config s) v
    (wifi_started s) (prov_mgr s) (reconnect s) (board s) (trace s).

Definition set_wifi_started (v : bool) (s : state) : state :=
  mk_state (provisioning_timer s) (startup_wifi_config s) (timers s) (wifi_config s)
    (wifi_storage s) v (prov_mgr s) (reconnect s) (board s) (trace s).

Definition set_prov_mgr (v : prov_mgr_state) (s : state) : state :=
  mk_state (provisioning_timer s) (startup_wifi_config s) (timers s) (wifi_config s)
    (wifi_storage s) (wifi_started s) v (reconnect s) (board s) (trace s).

Definition set_reconnect (v : reconnect_state) (s : state) : state :=
  mk_state (provisioning_timer s) (startup_wifi_config s) (timers s) (wifi_config s)
    (wifi_storage s) (wifi_started s) (prov_mgr s) v (board s) (trace s).

Definition set_trace (v : list call) (s : state) : state :=
  mk_state (provisioning_timer s) (startup_wifi_config s) (timers s) (wifi_config s)
    (wifi_storage s) (wifi_started s) (prov_mgr s) (reconnect s) (board s) v.

(** The program as it is loaded: [provisioning_timer = NULL],
    [startup_wifi_config = {}], nothing initialised, no timer allocated, and
    whatever station configuration [stored] the flash holds. *)
Definition boot (b : board_info) (stored : wifi_config_t) : state :=
  {| provisioning_timer := None;
     startup_wifi_config := wifi_config_zero;
     timers := ∅;
     wifi_config := stored;
     wifi_storage := WIFI_STORAGE_FLASH;
     wifi_started := false;
     prov_mgr := PROV_UNINIT;
     reconnect := RECONNECT_OFF;
     board := b;
     trace := [] |}.

(** ** A state monad with failure

    A computation either completes with a value and a new state, or stops
    the program: a failed [ESP_ERROR_CHECK] or [assert] aborts, and a timer
    call on a handle that is not allocated is a memory error. *)
Inductive failure :=
| CheckFailed (e : esp_err_t)
| AssertFailed
| InvalidHandle (h : esp_timer_handle_t).

Inductive result (A : Type) :=
| Done (a : A) (s : state)
| Failed (f : failure) (s : state).
Arguments Done {A} a s.
Arguments Failed {A} f s.

Definition M (A : Type) : Type := state -> result A.

Definition ret {A} (a : A) : M A := fun s => Done a s.

Definition bind {A B} (c : M A) (k : A -> M B) : M B :=
  fun s => match c s with
           | Done a s' => k a s'
           | Failed f s' => Failed f s'
           end.

Notation "x <- c ;; k" := (bind c (fun x => k))
  (at level 20, c at level 99, k at level 200, right associativity).
Notation "c ;; k" := (bind c (fun _ => k))
  (at level 100, k at level 200, right associativity).

Definition get {A} (field : state -> A) : M A := fun s => Done (field s) s.
Definition modify (f : state -> state) : M unit := fun s => Done tt (f s).
Definition fail {A} (f : failure) : M A := fun s => Failed f s.

(** Records a platform call. *)
Definition called (c : call) : M unit :=
  modify (fun s => set_trace (c :: trace s) s).

(** [ESP_ERROR_CHECK(x)]: abort unless [x == ESP_OK]. *)
Definition ESP_ERROR_CHECK (e : esp_err_t) : M unit :=
  match e with
  | ESP_OK => ret tt
  | _ => fail (CheckFailed e)
  end.

Definition ESP_LOGI (msg : string) : M unit := called (c_log LOG_INFO msg).
Definition ESP_LOGE (msg : string) : M unit := called (c_log LOG_ERROR msg).

(** [ESP_ERROR_CHECK_WITHOUT_ABORT(x)]: report a failure and go on. *)
Definition ESP_ERROR_CHECK_WITHOUT_ABORT (e : esp_err_t) : M unit :=
  match e with
  | ESP_OK => ret tt
  | _ => ESP_LOGE "ESP_ERROR_CHECK_WITHOUT_ABORT failed"
  end.

(** [assert(p)]. *)
Definition assert (p : bool) : M unit :=
  if p then ret tt else fail AssertFailed.

(** ** Platform services

    The services are not part of the translation unit; each is modelled
    by its contract, and records its call in the trace. *)

(** Bring-up calls whose effect lies outside the provisioning lifecycle
    ([esp_netif_init], [esp_wifi_init], ...): recorded, and successful. *)
Definition bring_up (c : call) : M esp_err_t :=
  called c;; ret ESP_OK.

(** [esp_netif_create_default_wifi_sta()]: whether the interface returned
    is not [NULL]. *)
Definition esp_netif_create_default_wifi_sta : M bool :=
  called c_esp_netif_create_default_wifi_sta;; ret true.

(** [esp_ota_get_partition_description(esp_ota_get_running_partition(),
    &app_info)]: fills [app_info] when the description can be read. What a
    failed read leaves in [app_info] is the library's affair; it is taken
    here to leave the zeroed object as it was. Returns the project name. *)
Definition esp_ota_get_partition_description : M (esp_err_t * string) :=
  called c_esp_ota_get_partition_description;;
  b <- get board;;
  match app_project_name b with
  | Some name => ret (ESP_OK, name)
  | None => ret (ESP_FAIL, EmptyString)
  end.

(** [esp_efuse_mac_get_default((uint8_t * )&mac)] on [mac = 0]: returns the
    value of [mac] afterwards. *)
Definition esp_efuse_mac_get_default : M (esp_err_t * Z) :=
  called c_esp_efuse_mac_get_default;;
  b <- get board;;
  ret (ESP_OK, mac_value (efuse_mac b)).

(** The Wi-Fi driver ([esp_wifi_get_config], [esp_wifi_set_config],
    [esp_wifi_set_storage], [esp_wifi_start]) is platform code outside the
    repository. It holds one station configuration, the persisted
    credential record: [esp_wifi_get_config] reads it and
    [esp_wifi_set_config] replaces it. *)
Definition esp_wifi_set_storage (st : wifi_storage_t) : M esp_err_t :=
  called (c_esp_wifi_set_storage st);;
  modify (set_wifi_storage st);;
  ret ESP_OK.

Definition esp_wifi_get_config : M (esp_err_t * wifi_config_t) :=
  called c_esp_wifi_get_config;;
  cfg <- get wifi_config;;
  ret (ESP_OK, cfg).

Definition esp_wifi_set_config (cfg : wifi_config_t) : M esp_err_t :=
  called (c_esp_wifi_set_config cfg);;
  modify (set_wifi_config cfg);;
  ret ESP_OK.

Definition esp_wifi_start : M esp_err_t :=
  called c_esp_wifi_start;;
  modify (set_wifi_started true);;
  ret ESP_OK.

(** The reconnect collaborator (the [wifi_reconnect] component) is outside
    the repository. Its two calls are idempotent hand-offs: [start] makes it
    wait, and a resume, which reaches it only once it is started, makes it
    connect with the station configuration in force. *)
Definition wifi_reconnect_start : M esp_err_t :=
  called c_wifi_reconnect_start;;
  r <- get reconnect;;
  match r with
  | RECONNECT_OFF => modify (set_reconnect RECONNECT_WAITING)
  | _ => ret tt
  end;;
  ret ESP_OK.

Definition wifi_reconnect_resume : M unit :=
  called c_wifi_reconnect_resume;;
  r <- get reconnect;;
  cfg <- get wifi_config;;
  match r with
  | RECONNECT_OFF => ret tt
  | _ => modify (set_reconnect (RECONNECT_RESUMED cfg))
  end.

(** The provisioning manager ([wifi_provisioning]) is platform code outside
    the repository: it is initialised once, serves under a service name
    once initialised, takes a stop as a request that is ignored unless it
    is serving, and reports credentials as present when the station
    configuration has a network name. *)
Definition wifi_prov_mgr_init : M esp_err_t :=
  called c_wifi_prov_mgr_init;;
  m <- get prov_mgr;;
  match m with
  | PROV_UNINIT => modify (set_prov_mgr PROV_READY);; ret ESP_OK
  | _ => ret ESP_ERR_INVALID_STATE
  end.

Definition wifi_prov_mgr_is_provisioned : M (esp_err_t * bool) :=
  called c_wifi_prov_mgr_is_provisioned;;
  cfg <- get wifi_config;;
  ret (ESP_OK, negb (ssid_unset cfg)).

Definition wifi_prov_mgr_start_provisioning (service_name : string) : M esp_err_t :=
  called (c_wifi_prov_mgr_start_provisioning service_name);;
  m <- get prov_mgr;;
  match m with
  | PROV_READY => modify (set_prov_mgr (PROV_RUNNING service_name false));; ret ESP_OK
  | _ => ret ESP_ERR_INVALID_STATE
  end.

Definition wifi_prov_mgr_stop_provisioning : M unit :=
  called c_wifi_prov_mgr_stop_provisioning;;
  m <- get prov_mgr;;
  match m with
  | PROV_RUNNING name _ => modify (set_prov_mgr (PROV_RUNNING name true))
  | _ => ret tt
  end.

Definition wifi_prov_mgr_deinit : M unit :=
  called c_wifi_prov_mgr_deinit;;
  modify (set_prov_mgr PROV_UNINIT).

(** The timer service ([esp_timer]) is platform code outside the
    repository: a timer is created disarmed under a new handle;
    [esp_timer_start_once] arms a disarmed timer; [esp_timer_stop] disarms
    an armed one; [esp_timer_delete] releases a disarmed one; the other
    cases return [ESP_ERR_INVALID_STATE] and change nothing; a call on a
    handle that is not allocated is a memory error. *)
Definition esp_timer_create (cb : esp_timer_cb_t) (name : string)
  : M (esp_err_t * esp_timer_handle_t) :=
  ts <- get timers;;
  let h := fresh (dom ts) in
  called (c_esp_timer_create h);;
  modify (set_timers (<[h := mk_esp_timer cb name None]> ts));;
  ret (ESP_OK, h).

Definition esp_timer_start_once (h : esp_timer_handle_t) (timeout_us : Z) : M esp_err_t :=
  called (c_esp_timer_start_once h timeout_us);;
  ts <- get timers;;
  match ts !! h with
  | None => fail (InvalidHandle h)
  | Some t =>
      match timer_armed t with
      | Some _ => ret ESP_ERR_INVALID_STATE
      | None =>
          modify (set_timers (<[h := set_timer_armed (Some timeout_us) t]> ts));;
          ret ESP_OK
      end
  end.

Definition esp_timer_stop (h : esp_timer_handle_t) : M esp_err_t :=
  called (c_esp_timer_stop h);;
  ts <- get timers;;
  match ts !! h with
  | None => fail (InvalidHandle h)
  | Some t =>
      match timer_armed t with
      | Some _ =>
          modify (set_timers (<[h := set_timer_armed None t]> ts));;
          ret ESP_OK
      | None => ret ESP_ERR_INVALID_STATE
      end
  end.

Definition esp_timer_delete (h : esp_timer_handle_t) : M esp_err_t :=
  called (c_esp_timer_delete h);;
  ts <- get timers;;
  match ts !! h with
  | None => fail (InvalidHandle h)
  | Some t =>
      match timer_armed t with
      | Some _ => ret ESP_ERR_INVALID_STATE
      | None => modify (set_timers (delete h ts));; ret ESP_OK
      end
  end.

(** ** The translation unit *)

(** Lines 15-23. *)
Definition provisioning_timer_delete : M unit :=
  t <- get provisioning_timer;;
  match t with
  | Some h =>
      esp_timer_stop h;;
      esp_timer_delete h;;
      modify (set_provisioning_timer None)
  | None => ret tt
  end.

(** Lines 25-30. *)
Definition provisioning_timer_handler : M unit :=
  ESP_LOGI "provisioning timeout";;
  wifi_prov_mgr_stop_provisioning.

Definition msg_provisioning_end : string := "provisioning end".
Definition msg_trying_startup : string :=
  "wifi credentials not found after provisioning, trying startup wifi config".
Definition msg_no_credentials : string := "no wifi credentials found".

(** Lines 32-81. *)
Definition wifi_prov_event_handler (event : wifi_prov_cb_event_t) : M unit :=
  match event with
  | WIFI_PROV_START =>
      ESP_LOGI "provisioning started"
  | WIFI_PROV_CRED_RECV wifi_sta_cfg =>
      ESP_LOGI ("provisioning received ssid '" +:+ c_str (sta_ssid wifi_sta_cfg) +:+ "'")
  | WIFI_PROV_CRED_FAIL reason =>
      ESP_LOGE ("provisioning failed: " +:+
                match reason with
                | WIFI_PROV_STA_AUTH_ERROR => "wifi STA authentication failed"
                | _ => "wifi AP not found"
                end)
  | WIFI_PROV_CRED_SUCCESS =>
      ESP_LOGI "provisioning successful"
  | WIFI_PROV_END =>
      ESP_LOGI msg_provisioning_end;;
      provisioning_timer_delete;;
      wifi_prov_mgr_deinit;;
      e <- esp_wifi_set_storage WIFI_STORAGE_FLASH;;
      ESP_ERROR_CHECK e;;
      r <- esp_wifi_get_config;;
      ESP_ERROR_CHECK (fst r);;
      let current_cfg := snd r in
      startup <- get startup_wifi_config;;
      (if ssid_unset current_cfg then
         ESP_LOGI msg_trying_startup;;
         e <- esp_wifi_set_config startup;;
         ESP_ERROR_CHECK e
       else if ssid_unset startup then
         ESP_LOGI msg_no_credentials
       else ret tt);;
      wifi_reconnect_resume
  | _ => ret tt
  end.

(** [int] is 32 bits wide on the target; the product is then converted to
    the [uint64_t] parameter of [esp_timer_start_once]. *)
Definition wrap_int32 (z : Z) : Z := (z + 2 ^ 31) mod 2 ^ 32 - 2 ^ 31.
Definition to_uint64 (z : Z) : Z := z mod 2 ^ 64.

Section Config.

(** [CONFIG_APP_WIFI_PROV_TIMEOUT_S], set when the firmware is built. *)
Variable APP_WIFI_PROV_TIMEOUT_S : Z.

Definition provisioning_timeout_us : Z :=
  to_uint64 (wrap_int32 (APP_WIFI_PROV_TIMEOUT_S * 1000000)).

(** Lines 83-151. *)
Definition setup_wifi (reconfigure : bool) : M unit :=
  r <- esp_ota_get_partition_description;;
  ESP_ERROR_CHECK_WITHOUT_ABORT (fst r);;
  let project_name := snd r in
  r <- esp_efuse_mac_get_default;;
  ESP_ERROR_CHECK (fst r);;
  let mac := snd r in
  let device_name := device_name_of project_name mac in
  ESP_LOGI ("device name '" +:+ device_name +:+ "'");;
  e <- bring_up c_esp_netif_init;;
  ESP_ERROR_CHECK e;;
  sta_netif <- esp_netif_create_default_wifi_sta;;
  assert sta_netif;;
  e <- bring_up c_esp_wifi_init;;
  ESP_ERROR_CHECK e;;
  e <- esp_wifi_set_storage WIFI_STORAGE_FLASH;;
  ESP_ERROR_CHECK e;;
  e <- bring_up c_esp_wifi_set_mode_sta;;
  ESP_ERROR_CHECK e;;
  e <- bring_up (c_tcpip_adapter_set_hostname device_name);;
  ESP_ERROR_CHECK e;;
  e <- wifi_reconnect_start;;
  ESP_ERROR_CHECK e;;
  r <- esp_wifi_get_config;;
  modify (set_startup_wifi_config (snd r));;
  ESP_ERROR_CHECK (fst r);;
  e <- bring_up c_esp_event_handler_register;;
  ESP_ERROR_CHECK e;;
  e <- wifi_prov_mgr_init;;
  ESP_ERROR_CHECK e;;
  r <- wifi_prov_mgr_is_provisioned;;
  ESP_ERROR_CHECK (fst r);;
  let provisioned := snd r in
  if negb provisioned || reconfigure then
    ESP_LOGI ("provisioning starting, timeout " +:+ fmt_d APP_WIFI_PROV_TIMEOUT_S +:+ " s");;
    let service_name := service_name_of device_name in
    e <- wifi_prov_mgr_start_provisioning service_name;;
    ESP_ERROR_CHECK e;;
    r <- esp_timer_create cb_provisioning_timer_handler "wifi_prov_timer";;
    modify (set_provisioning_timer (Some (snd r)));;
    ESP_ERROR_CHECK (fst r);;
    e <- esp_timer_start_once (snd r) provisioning_timeout_us;;
    ESP_ERROR_CHECK e
  else
    wifi_prov_mgr_deinit;;
    e <- esp_wifi_start;;
    ESP_ERROR_CHECK e;;
    wifi_reconnect_resume.

End Config.

(** ** The environment

    What reaches the program after [setup_wifi]: the event loop dispatches
    a provisioning event, a timer reaches its deadline, or the Wi-Fi stack
    replaces the station configuration on its own (as it does when
    credentials are applied, or lost, during a session). Inputs are
    processed one at a time, each to completion. *)
Inductive input :=
| in_event (e : wifi_prov_cb_event_t)
| in_timer_expired (h : esp_timer_handle_t)
| in_stack_config (cfg : wifi_config_t).

Definition run_callback (cb : esp_timer_cb_t) : M unit :=
  match cb with
  | cb_provisioning_timer_handler => provisioning_timer_handler
  end.

(** Only an armed timer fires; a one-shot timer is disarmed when it does,
    and stays allocated. *)
Definition timer_expired (h : esp_timer_handle_t) : M unit :=
  ts <- get timers;;
  match ts !! h with
  | Some t =>
      match timer_armed t with
      | Some _ =>
          modify (set_timers (<[h := set_timer_armed None t]> ts));;
          run_callback (timer_callback t)
      | None => ret tt
      end
  | None => ret tt
  end.

Definition deliver (i : input) : M unit :=
  match i with
  | in_event e => wifi_prov_event_handler e
  | in_timer_expired h => timer_expired h
  | in_stack_config cfg => modify (set_wifi_config cfg)
  end.

Fixpoint run (inputs : list input) : M unit :=
  match inputs with
  | [] => ret tt
  | i :: rest => deliver i;; run rest
  end.

(** Number of armed timers. *)
Definition armed_timers (s : state) : nat :=
  size (filter (fun kt => is_Some (timer_armed (snd kt))) (timers s)).

(** ** Observations on states *)

(** The calls made between [s] and a later state [s'], oldest first. *)
Definition new_calls (s s' : state) : list call :=
  rev (firstn (List.length (trace s') - List.length (trace s)) (trace s')).

Definition is_set_config (c : call) : bool :=
  match c with
  | c_esp_wifi_set_config _ => true
  | _ => false
  end.

Definition is_log (c : call) : bool :=
  match c with
  | c_log _ _ => true
  | _ => false
  end.

Definition is_log_of (msg : string) (c : call) : bool :=
  match c with
  | c_log _ m => String.eqb m msg
  | _ => false
  end.

Definition is_timer_call (c : call) : bool :=
  match c with
  | c_esp_timer_create _ | c_esp_timer_start_once _ _
  | c_esp_timer_stop _ | c_esp_timer_delete _ => true
  | _ => false
  end.

Definition is_resume (c : call) : bool :=
  match c with
  | c_wifi_reconnect_resume => true
  | _ => false
  end.

(** [s'] differs from [s] at most in the recorded calls. *)
Definition same_but_trace (s s' : state) : Prop :=
  s' = set_trace (trace s') s.

(** [s'] differs from [s] at most in the recorded calls and in the state of
    the provisioning manager. *)
Definition same_but_mgr (s s' : state) : Prop :=
  s' = set_prov_mgr (prov_mgr s') (set_trace (trace s') s).

(** The handle in [provisioning_timer], when there is one, names an
    allocated timer. *)
Definition handle_valid (s : state) : Prop :=
  match provisioning_timer s with
  | Some h => is_Some (timers s !! h)
  | None => True
  end.

(** The allocated timers are exactly the one [provisioning_timer] names. *)
Definition session_inv (s : state) : Prop :=
  dom (timers s) = match provisioning_timer s with
                   | Some h => {[ h ]}
                   | None => ∅
                   end.

(** [!provisioned || reconfigure] for the stored configuration. *)
Definition needs_provisioning (stored : wifi_config_t) (reconfigure : bool) : bool :=
  negb (negb (ssid_unset stored)) || reconfigure.

(** ** The device name as the specification words it *)

(** Two lowercase hexadecimal characters per byte, in sequence order. *)
Fixpoint spec_hex_of_bytes (bs : list byte) : string :=
  match bs with
  | [] => EmptyString
  | b :: rest =>
      String (hex_char (byte_to_Z b / 16))
        (String (hex_char (byte_to_Z b mod 16)) (spec_hex_of_bytes rest))
  end.

(** [productName] (at most 25 characters), ['-'], the twelve hexadecimal
    characters of [hardwareId]. *)
Definition spec_device_name (product_name : string) (hardware_id : list byte) : string :=
  str_take 25 product_name +:+ "-" +:+ spec_hex_of_bytes hardware_id.

(** Does [sub] occur in [s]? *)
Fixpoint occurs_in (sub s : string) : bool :=
  String.prefix sub s ||
  match s with
  | EmptyString => false
  | String _ rest => occurs_in sub rest
  end.

(** Value of a string of hexadecimal characters in lowercase ([None] when
    another character occurs). *)
Definition hex_char_value (c : ascii) : option Z :=
  let n := Z.of_nat (nat_of_ascii c) in
  if (48 <=? n) && (n <=? 57) then Some (n - 48)
  else if (97 <=? n) && (n <=? 102) then Some (n - 87)
  else None.

Fixpoint hex_value_from (acc : Z) (s : string) : option Z :=
  match s with
  | EmptyString => Some acc
  | String c rest =>
      match hex_char_value c with
      | Some d => hex_value_from (16 * acc + d) rest
      | None => None
      end
  end.

Definition hex_value (s : string) : option Z := hex_value_from 0 s.

(** Value of a list of hexadecimal digits, most significant first, on top
    of [acc]. *)
Definition digits_value (acc : Z) (ds : list Z) : Z :=
  fold_left (fun a d => 16 * a + d) ds acc.

(** The project name [setup_wifi] ends up with in [app_info]. *)
Definition project_name_of (b : board_info) : string :=
  match app_project_name b with
  | Some name => name
  | None => EmptyString
  end.

(** ** Sample boards and sessions *)

Definition sample_board : board_info :=
  mk_board (Some "MyApp") [x22; x11; x00; x00; x00; x00].

Definition home_network : wifi_config_t :=
  {| sta_ssid := "home"; sta_password := "secret" |}.

(** A session whose timeout has fired: the timer is still allocated, the
    stop is requested, and [WIFI_PROV_END] is about to be dispatched with
    [current] as the station configuration and [startup] as the snapshot. *)
Definition ending_session (current startup : wifi_config_t) : state :=
  {| provisioning_timer := Some 1%positive;
     startup_wifi_config := startup;
     timers := {[ 1%positive := mk_esp_timer cb_provisioning_timer_handler
                                  "wifi_prov_timer" None ]};
     wifi_config := current;
     wifi_storage := WIFI_STORAGE_RAM;
     wifi_started := false;
     prov_mgr := PROV_RUNNING "PROV_MyApp-001122" true;
     reconnect := RECONNECT_WAITING;
     board := sample_board;
     trace := [] |}.

(** ** Observations on call sequences *)

Definition is_stop_request (c : call) : bool :=
  match c with
  | c_wifi_prov_mgr_stop_provisioning => true
  | _ => false
  end.

(** Number of stop requests made to the provisioning manager. *)
Definition stop_requests (l : list call) : nat :=
  List.length (List.filter is_stop_request l).

Definition is_reconnect_start (c : call) : bool :=
  match c with
  | c_wifi_reconnect_start => true
  | _ => false
  end.

(** The calls after which the station may connect: the start of the
    provisioning service, the start of Wi-Fi, and the resume of the
    reconnect collaborator. *)
Definition is_connect_trigger (c : call) : bool :=
  match c with
  | c_wifi_prov_mgr_start_provisioning _ | c_esp_wifi_start
  | c_wifi_reconnect_resume => true
  | _ => false
  end.

Definition is_get_config (c : call) : bool :=
  match c with
  | c_esp_wifi_get_config => true
  | _ => false
  end.

Definition is_prov_mgr_call (c : call) : bool :=
  match c with
  | c_wifi_prov_mgr_init | c_wifi_prov_mgr_is_provisioned
  | c_wifi_prov_mgr_start_provisioning _ | c_wifi_prov_mgr_stop_provisioning
  | c_wifi_prov_mgr_deinit => true
  | _ => false
  end.

(** In [l], read oldest first, a call satisfying [p] occurs, and no call
    satisfying [q] occurs before the first of them. *)
Fixpoint first_precedes (p q : call -> bool) (l : list call) : bool :=
  match l with
  | [] => false
  | c :: rest => p c || (negb (q c) && first_precedes p q rest)
  end.

Definition msg_check_failed : string := "ESP_ERROR_CHECK_WITHOUT_ABORT failed".

Definition is_set_hostname (c : call) : bool :=
  match c with
  | c_tcpip_adapter_set_hostname _ => true
  | _ => false
  end.

(** ** Reasoning support *)

Ltac m_unfold :=
  unfold wifi_prov_event_handler, provisioning_timer_delete, provisioning_timer_handler,
    timer_expired, run_callback,
    esp_timer_create, esp_timer_start_once, esp_timer_stop, esp_timer_delete,
    wifi_prov_mgr_init, wifi_prov_mgr_is_provisioned, wifi_prov_mgr_start_provisioning,
    wifi_prov_mgr_deinit, wifi_prov_mgr_stop_provisioning,
    esp_wifi_set_storage, esp_wifi_get_config, esp_wifi_set_config, esp_wifi_start,
    wifi_reconnect_start, wifi_reconnect_resume,
    esp_ota_get_partition_description, esp_efuse_mac_get_default, bring_up,
    esp_netif_create_default_wifi_sta,
    ESP_LOGI, ESP_LOGE, called, ESP_ERROR_CHECK, ESP_ERROR_CHECK_WITHOUT_ABORT, assert,
    bind, ret, get, modify, fail.

Ltac m_simpl :=
  cbn [provisioning_timer startup_wifi_config timers wifi_config wifi_storage wifi_started
       prov_mgr reconnect board trace
       set_provisioning_timer set_startup_wifi_config set_timers set_wifi_config
       set_wifi_storage set_wifi_started set_prov_mgr set_reconnect set_trace
       timer_callback timer_name timer_armed set_timer_armed
       app_project_name efuse_mac fst snd boot].

(** *** The device name on sample boards *)

Example device_name_small :
  device_name_of "MyApp" (mac_value [x22; x11; x00; x00; x00; x00]) = "MyApp-001122".
Proof. reflexivity. Qed.

Example device_name_full :
  device_name_of "MyApp" (mac_value [x24; x0a; xc4; x00; x11; x22]) = "MyApp-221100c40a24".
Proof. reflexivity. Qed.

Example device_name_long :
  device_name_of "abcdefghijklmnopqrstuvwxyz0123" (mac_value [x24; x0a; xc4; x00; x11; x22])
  = "abcdefghijklmnopqrstuvwxy-221100".
Proof. reflexivity. Qed.

Example service_name_small : service_name_of "MyApp-001122" = "PROV_MyApp-001122".
Proof. reflexivity. Qed.

(** *** Failure paths on sample states *)

(** A second [setup_wifi] finds the provisioning manager initialised and
    aborts in [ESP_ERROR_CHECK]. *)
Example setup_wifi_twice_aborts :
  exists s, (setup_wifi 30 false;; setup_wifi 30 false) (boot sample_board wifi_config_zero)
            = Failed (CheckFailed ESP_ERR_INVALID_STATE) s.
Proof. eexists. vm_compute. reflexivity. Qed.

(** An armed timer cannot be released: the stop has to come first. *)
Example delete_armed_timer_refused :
  exists s1 s2,
    setup_wifi 30 false (boot sample_board wifi_config_zero) = Done tt s1 /\
    esp_timer_delete 1%positive s1 = Done ESP_ERR_INVALID_STATE s2 /\
    timers s2 = timers s1.
Proof.
  eexists; eexists. split; [vm_compute; reflexivity|].
  split; vm_compute; reflexivity.
Qed.

(** A timer call on a released handle is a memory error. *)
Example stop_released_timer_faults :
  exists s1 s2,
    (setup_wifi 30 false;; wifi_prov_event_handler WIFI_PROV_END)
      (boot sample_board wifi_config_zero) = Done tt s1 /\
    esp_timer_stop 1%positive s1 = Failed (InvalidHandle 1%positive) s2.
Proof. eexists; eexists. split; vm_compute; reflexivity. Qed.

Lemma new_calls_app (s s' : state) (l : list call) :
  trace s' = (l ++ trace s)%list -> new_calls s s' = rev l.
Proof.
  intros H. unfold new_calls. rewrite H, length_app.
  replace (List.length l + List.length (trace s) - List.length (trace s))%nat
    with (List.length l) by lia.
  now rewrite firstn_app, Nat.sub_diag, firstn_all, firstn_O, app_nil_r.
Qed.

Lemma new_calls_rev (s s' : state) (l : list call) :
  trace s' = (rev l ++ trace s)%list -> new_calls s s' = l.
Proof. intros H. rewrite (new_calls_app s s' (rev l) H). apply rev_involutive. Qed.

Lemma new_calls_refl (s : state) : new_calls s s = [].
Proof. apply (new_calls_app s s []). reflexivity. Qed.

Lemma provisioning_timer_delete_none (s : state) :
  provisioning_timer s = None -> provisioning_timer_delete s = Done tt s.
Proof. intros H. m_unfold. now rewrite H. Qed.

Lemma provisioning_timer_delete_some (s : state) (h : esp_timer_handle_t) :
  provisioning_timer s = Some h ->
  is_Some (timers s !! h) ->
  provisioning_timer_delete s
  = Done tt (set_provisioning_timer None
               (set_timers (delete h (timers s))
                  (set_trace (c_esp_timer_delete h :: c_esp_timer_stop h :: trace s) s))).
Proof.
  intros Hp [t Ht]. m_unfold. m_simpl. rewrite Hp. m_simpl. rewrite Ht.
  destruct (timer_armed t) as [us|] eqn:Ha; m_simpl.
  - rewrite lookup_insert_eq. m_simpl. now rewrite delete_insert_eq.
  - rewrite Ht, Ha. now m_simpl.
Qed.

(** What the [WIFI_PROV_END] case does, field by field. *)
Lemma handler_end_spec (s : state) :
  handle_valid s ->
  exists s',
    wifi_prov_event_handler WIFI_PROV_END s = Done tt s' /\
    provisioning_timer s' = None /\
    timers s' = match provisioning_timer s with
                | Some h => delete h (timers s)
                | None => timers s
                end /\
    startup_wifi_config s' = startup_wifi_config s /\
    wifi_config s' = (if ssid_unset (wifi_config s) then startup_wifi_config s
                      else wifi_config s) /\
    wifi_storage s' = WIFI_STORAGE_FLASH /\
    wifi_started s' = wifi_started s /\
    prov_mgr s' = PROV_UNINIT /\
    reconnect s' = match reconnect s with
                   | RECONNECT_OFF => RECONNECT_OFF
                   | _ => RECONNECT_RESUMED (wifi_config s')
                   end /\
    board s' = board s /\
    new_calls s s'
    = ([c_log LOG_INFO msg_provisioning_end]
      ++ match provisioning_timer s with
         | Some h => [c_esp_timer_stop h; c_esp_timer_delete h]
         | None => []
         end
      ++ [c_wifi_prov_mgr_deinit; c_esp_wifi_set_storage WIFI_STORAGE_FLASH;
          c_esp_wifi_get_config]
      ++ (if ssid_unset (wifi_config s)
          then [c_log LOG_INFO msg_trying_startup;
                c_esp_wifi_set_config (startup_wifi_config s)]
          else if ssid_unset (startup_wifi_config s)
               then [c_log LOG_INFO msg_no_credentials]
               else [])
      ++ [c_wifi_reconnect_resume])%list.
Proof.
  intros Hv. unfold handle_valid in Hv.
  unfold wifi_prov_event_handler.
  unfold bind at 1. unfold ESP_LOGI, called, modify at 1.
  unfold bind at 1.
  destruct (provisioning_timer s) as [h|] eqn:Hp.
  - rewrite (provisioning_timer_delete_some _ h) by (m_simpl; assumption).
    m_unfold; m_simpl.
    destruct (ssid_unset (wifi_config s)) eqn:Hc;
      [| destruct (ssid_unset (startup_wifi_config s)) eqn:Hs];
      destruct (reconnect s) eqn:Hr; m_simpl; rewrite ?Hr; m_simpl;
      (eexists; split; [reflexivity|]; m_simpl;
       rewrite ?Hc, ?Hs, ?Hr; repeat (split; [reflexivity|]);
       apply new_calls_rev; m_simpl; reflexivity).
  - rewrite provisioning_timer_delete_none by (m_simpl; assumption).
    m_unfold; m_simpl.
    destruct (ssid_unset (wifi_config s)) eqn:Hc;
      [| destruct (ssid_unset (startup_wifi_config s)) eqn:Hs];
      destruct (reconnect s) eqn:Hr; m_simpl; rewrite ?Hr; m_simpl;
      (eexists; split; [reflexivity|]; m_simpl;
       rewrite ?Hc, ?Hs, ?Hr, ?Hp; repeat (split; [reflexivity|]);
       apply new_calls_rev; m_simpl; reflexivity).
Qed.

(** Every case but [WIFI_PROV_END] only logs. *)
Lemma handler_observes (e : wifi_prov_cb_event_t) (s : state) :
  e <> WIFI_PROV_END ->
  exists s',
    wifi_prov_event_handler e s = Done tt s' /\
    same_but_trace s s' /\
    forallb is_log (new_calls s s') = true.
Proof.
  intros He. unfold same_but_trace.
  destruct s as [pt su ts wc ws wst pm rc bd tr].
  destruct e; try congruence; m_unfold; m_simpl;
    (eexists; split; [reflexivity|]; split; [reflexivity|]);
    try (rewrite new_calls_refl; reflexivity);
    (erewrite new_calls_rev by (m_simpl; instantiate (1 := [_]); reflexivity);
     reflexivity).
Qed.

(** The timer callback: one log line and one stop request. *)
Lemma timer_handler_spec (s : state) :
  provisioning_timer_handler s
  = Done tt (set_prov_mgr
               match prov_mgr s with
               | PROV_RUNNING name _ => PROV_RUNNING name true
               | m => m
               end
               (set_trace (c_wifi_prov_mgr_stop_provisioning
                           :: c_log LOG_INFO "provisioning timeout" :: trace s) s)).
Proof.
  m_unfold; m_simpl. destruct s as [pt su ts wc ws wst pm rc bd tr]; m_simpl.
  destruct pm; reflexivity.
Qed.

Lemma session_inv_handle_valid (s : state) : session_inv s -> handle_valid s.
Proof.
  unfold session_inv, handle_valid. destruct (provisioning_timer s) as [h|]; [|trivial].
  intros Hd. apply elem_of_dom. rewrite Hd. now apply elem_of_singleton.
Qed.

Lemma handler_end_releases (s : state) :
  session_inv s ->
  exists s',
    wifi_prov_event_handler WIFI_PROV_END s = Done tt s' /\
    timers s' = ∅ /\ provisioning_timer s' = None.
Proof.
  intros Hi.
  destruct (handler_end_spec s (session_inv_handle_valid s Hi))
    as (s' & Hrun & Hpt & Hts & _).
  exists s'. split; [assumption|]. split; [|assumption].
  unfold session_inv in Hi. rewrite Hts.
  destruct (provisioning_timer s) as [h|].
  - apply dom_empty_inv_L. rewrite dom_delete_L, Hi. apply difference_diag_L.
  - now apply dom_empty_inv_L.
Qed.

Lemma timer_expired_spec (h : esp_timer_handle_t) (s : state) :
  exists s',
    timer_expired h s = Done tt s' /\
    dom (timers s') = dom (timers s) /\
    provisioning_timer s' = provisioning_timer s.
Proof.
  unfold timer_expired. unfold bind at 1, get at 1.
  destruct (timers s !! h) as [t|] eqn:Ht; [|eexists; split; [reflexivity|now split]].
  destruct (timer_armed t) eqn:Ha; [|eexists; split; [reflexivity|now split]].
  unfold bind at 1, modify at 1. destruct (timer_callback t); unfold run_callback.
  rewrite timer_handler_spec. eexists; split; [reflexivity|]. m_simpl.
  split; [|reflexivity]. rewrite dom_insert_L.
  apply subseteq_union_1_L, singleton_subseteq_l, elem_of_dom. eauto.
Qed.

(** Every input is processed to completion, and keeps the invariant. *)
Lemma deliver_session_inv (i : input) (s : state) :
  session_inv s ->
  exists s', deliver i s = Done tt s' /\ session_inv s'.
Proof.
  intros Hi. destruct i as [e|h|cfg]; cbn [deliver].
  - assert (e = WIFI_PROV_END \/ e <> WIFI_PROV_END) as [->|He]
      by (destruct e; (now left) || (now right)).
    + destruct (handler_end_releases s Hi) as (s' & Hrun & Hts & Hpt).
      exists s'. split; [assumption|]. unfold session_inv. rewrite Hts, Hpt.
      apply dom_empty_L.
    + destruct (handler_observes e s He) as (s' & Hrun & Hsame & _).
      exists s'. split; [assumption|]. unfold same_but_trace in Hsame.
      rewrite Hsame. exact Hi.
  - destruct (timer_expired_spec h s) as (s' & Hrun & Hd & Hp).
    exists s'. split; [assumption|]. unfold session_inv. now rewrite Hd, Hp.
  - eexists; split; [reflexivity|]. exact Hi.
Qed.

Lemma run_session_inv (inputs : list input) (s : state) :
  session_inv s ->
  exists s', run inputs s = Done tt s' /\ session_inv s'.
Proof.
  revert s. induction inputs as [|i rest IH]; intros s Hi; cbn [run].
  - exists s. now split.
  - destruct (deliver_session_inv i s Hi) as (s1 & Hrun & Hi1).
    unfold bind. rewrite Hrun. now apply IH.
Qed.

Lemma run_app (l1 l2 : list input) (s : state) :
  run (l1 ++ l2) s = (run l1;; run l2) s.
Proof.
  revert s. induction l1 as [|i rest IH]; intros s; cbn [run app].
  - reflexivity.
  - unfold bind. destruct (deliver i s) as [[] s1|f s1]; [apply IH|reflexivity].
Qed.

(** Stepping through a sequence of calls, one call at a time, with the
    state kept as an explicit record. *)
Lemma bind_done {A B : Type} (c : M A) (k : A -> M B) (s s' : state) (a : A) :
  c s = Done a s' -> bind c k s = k a s'.
Proof. intros H. unfold bind. now rewrite H. Qed.

Lemma esp_timer_start_once_idle (s : state) (h : esp_timer_handle_t) (t : esp_timer) (us : Z) :
  timers s !! h = Some t ->
  timer_armed t = None ->
  esp_timer_start_once h us s
  = Done ESP_OK (set_timers (<[h := set_timer_armed (Some us) t]> (timers s))
                   (set_trace (c_esp_timer_start_once h us :: trace s) s)).
Proof. intros Ht Ha. m_unfold; m_simpl. rewrite Ht, Ha. reflexivity. Qed.

Ltac m_flat :=
  cbv beta iota zeta delta
    [provisioning_timer startup_wifi_config timers wifi_config wifi_storage wifi_started
     prov_mgr reconnect board trace
     set_provisioning_timer set_startup_wifi_config set_timers set_wifi_config
     set_wifi_storage set_wifi_started set_prov_mgr set_reconnect set_trace
     timer_callback timer_name timer_armed set_timer_armed
     app_project_name efuse_mac fst snd boot].

Ltac m_call := m_unfold; m_flat; reflexivity.

Ltac m_step := erewrite bind_done by m_call; cbv beta zeta; cbn [fst snd].

(** [setup_wifi] on the freshly loaded program, field by field. *)
Lemma setup_wifi_spec (T : Z) (b : board_info) (stored : wifi_config_t) (reconfigure : bool) :
  let device_name := device_name_of (project_name_of b) (mac_value (efuse_mac b)) in
  exists s',
    setup_wifi T reconfigure (boot b stored) = Done tt s' /\
    startup_wifi_config s' = stored /\
    wifi_config s' = stored /\
    wifi_storage s' = WIFI_STORAGE_FLASH /\
    board s' = b /\
    if needs_provisioning stored reconfigure
    then
      (exists h,
         provisioning_timer s' = Some h /\
         timers s' = {[ h := mk_esp_timer cb_provisioning_timer_handler "wifi_prov_timer"
                              (Some (provisioning_timeout_us T)) ]}) /\
      prov_mgr s' = PROV_RUNNING (service_name_of device_name) false /\
      reconnect s' = RECONNECT_WAITING /\
      wifi_started s' = false /\
      existsb is_resume (trace s') = false
    else
      provisioning_timer s' = None /\
      timers s' = ∅ /\
      prov_mgr s' = PROV_UNINIT /\
      reconnect s' = RECONNECT_RESUMED stored /\
      wifi_started s' = true /\
      existsb is_timer_call (trace s') = false.
Proof.
  unfold setup_wifi, needs_provisioning, project_name_of.
  destruct b as [pn mac]; destruct pn as [name|]; cbn [app_project_name efuse_mac].
  all: repeat m_step.
  all: destruct (ssid_unset stored) eqn:Hs; destruct reconfigure; cbn [negb orb].
  all: repeat m_step.
  all: try (erewrite bind_done
              by (apply esp_timer_start_once_idle; [apply lookup_insert_eq|reflexivity]);
            cbv beta zeta; m_simpl; rewrite insert_insert_eq, insert_empty).
  all: eexists; (split; [m_call|]); m_simpl.
  all: rewrite ?Hs; cbn [negb orb].
  all: do 4 (split; [reflexivity|]).
  all: lazymatch goal with
       | |- (exists h, _) /\ _ => split; [eexists; split; reflexivity|]
       | |- _ => idtac
       end.
  all: repeat lazymatch goal with |- _ /\ _ => split; [reflexivity|] end.
  all: cbn [existsb is_resume is_timer_call orb]; reflexivity.
Qed.

(** ** Reconciliation at the end of a session *)

Lemma set_config_calls_of_end (s : state) (pre : list call) (cfg : wifi_config_t) :
  List.filter is_set_config
    ([c_log LOG_INFO msg_provisioning_end]
      ++ pre
      ++ [c_wifi_prov_mgr_deinit; c_esp_wifi_set_storage WIFI_STORAGE_FLASH;
          c_esp_wifi_get_config]
      ++ [c_log LOG_INFO msg_trying_startup; c_esp_wifi_set_config cfg]
      ++ [c_wifi_reconnect_resume])%list
  = (List.filter is_set_config pre ++ [c_esp_wifi_set_config cfg])%list.
Proof. cbn [app List.filter is_set_config]. now rewrite List.filter_app. Qed.

Lemma timer_calls_not_set_config (o : option esp_timer_handle_t) :
  List.filter is_set_config
    match o with
    | Some h => [c_esp_timer_stop h; c_esp_timer_delete h]
    | None => []
    end = [].
Proof. now destruct o. Qed.

(** C1: at session end, when the station configuration read back has no
    network name and the snapshot taken before provisioning has one, the
    handler completes, writes the snapshot back (its only write), and the
    persisted configuration afterwards equals the snapshot. *)
Theorem C1_startup_credentials_written_back (s : state) :
  handle_valid s ->
  ssid_unset (wifi_config s) = true ->
  ssid_unset (startup_wifi_config s) = false ->
  exists s',
    wifi_prov_event_handler WIFI_PROV_END s = Done tt s' /\
    wifi_config s' = startup_wifi_config s /\
    List.filter is_set_config (new_calls s s')
    = [c_esp_wifi_set_config (startup_wifi_config s)].
Proof.
  intros Hv Hc _.
  destruct (handler_end_spec s Hv) as (s' & Hrun & _ & _ & _ & Hcfg & _ & _ & _ & _ & _ & Hcalls).
  exists s'. rewrite Hc in Hcfg, Hcalls. repeat split; try assumption.
  rewrite Hcalls, set_config_calls_of_end by exact s.
  now rewrite timer_calls_not_set_config.
Qed.

Lemma C1_startup_credentials_written_back_witness :
  exists s',
    wifi_prov_event_handler WIFI_PROV_END (ending_session wifi_config_zero home_network)
    = Done tt s' /\
    wifi_config s' = home_network /\
    List.filter is_set_config (new_calls (ending_session wifi_config_zero home_network) s')
    = [c_esp_wifi_set_config home_network].
Proof.
  apply (C1_startup_credentials_written_back (ending_session wifi_config_zero home_network)).
  - unfold handle_valid; cbn. eexists; reflexivity.
  - reflexivity.
  - reflexivity.
Defined.

(** C2: with an empty station configuration and an empty snapshot, the
    handler does not stay idle: on the session that [setup_wifi] opens on a
    board without credentials and that times out, it writes the (empty)
    snapshot, reports that it tries the startup configuration, and never
    reports "no wifi credentials found". That report is made on the branch
    where the configuration read back has a network name and the snapshot
    has none, as in the same session after credentials were accepted. In
    both runs the handler completes and resumes the reconnect collaborator. *)
Theorem C2_no_credentials_report_misplaced :
  (exists s1 s2,
     setup_wifi 30 false (boot sample_board wifi_config_zero) = Done tt s1 /\
     ssid_unset (startup_wifi_config s1) = true /\
     run [in_event WIFI_PROV_START; in_timer_expired 1%positive] s1 = Done tt s2 /\
     ssid_unset (wifi_config s2) = true /\
     exists s3,
       wifi_prov_event_handler WIFI_PROV_END s2 = Done tt s3 /\
       new_calls s2 s3
       = [c_log LOG_INFO msg_provisioning_end;
          c_esp_timer_stop 1%positive; c_esp_timer_delete 1%positive;
          c_wifi_prov_mgr_deinit; c_esp_wifi_set_storage WIFI_STORAGE_FLASH;
          c_esp_wifi_get_config;
          c_log LOG_INFO msg_trying_startup;
          c_esp_wifi_set_config wifi_config_zero;
          c_wifi_reconnect_resume] /\
       existsb is_set_config (new_calls s2 s3) = true /\
       existsb (is_log_of msg_no_credentials) (new_calls s2 s3) = false) /\
  (exists s1 s2,
     setup_wifi 30 false (boot sample_board wifi_config_zero) = Done tt s1 /\
     ssid_unset (startup_wifi_config s1) = true /\
     run [in_event WIFI_PROV_START; in_event (WIFI_PROV_CRED_RECV home_network);
          in_stack_config home_network; in_event WIFI_PROV_CRED_SUCCESS] s1 = Done tt s2 /\
     ssid_unset (wifi_config s2) = false /\
     exists s3,
       wifi_prov_event_handler WIFI_PROV_END s2 = Done tt s3 /\
       existsb is_set_config (new_calls s2 s3) = false /\
       existsb (is_log_of msg_no_credentials) (new_calls s2 s3) = true).
Proof.
  split.
  - eexists; eexists. split; [vm_compute; reflexivity|].
    split; [reflexivity|]. split; [vm_compute; reflexivity|].
    split; [reflexivity|]. eexists. split; [vm_compute; reflexivity|].
    repeat split; vm_compute; reflexivity.
  - eexists; eexists. split; [vm_compute; reflexivity|].
    split; [reflexivity|]. split; [vm_compute; reflexivity|].
    split; [reflexivity|]. eexists. split; [vm_compute; reflexivity|].
    repeat split; vm_compute; reflexivity.
Qed.

(** C3: at session end, when the station configuration read back has a
    network name, the handler completes without any write and leaves the
    configuration as it is; handling the end a second time again writes
    nothing and yields the same configuration. *)
Theorem C3_persisted_credentials_kept (s : state) :
  handle_valid s ->
  ssid_unset (wifi_config s) = false ->
  exists s1 s2,
    wifi_prov_event_handler WIFI_PROV_END s = Done tt s1 /\
    wifi_config s1 = wifi_config s /\
    existsb is_set_config (new_calls s s1) = false /\
    wifi_prov_event_handler WIFI_PROV_END s1 = Done tt s2 /\
    wifi_config s2 = wifi_config s1 /\
    existsb is_set_config (new_calls s1 s2) = false.
Proof.
  intros Hv Hc.
  destruct (handler_end_spec s Hv)
    as (s1 & Hrun1 & Hpt1 & _ & _ & Hcfg1 & _ & _ & _ & _ & _ & Hcalls1).
  rewrite Hc in Hcfg1, Hcalls1.
  assert (Hv1 : handle_valid s1) by (unfold handle_valid; now rewrite Hpt1).
  destruct (handler_end_spec s1 Hv1)
    as (s2 & Hrun2 & _ & _ & _ & Hcfg2 & _ & _ & _ & _ & _ & Hcalls2).
  rewrite Hcfg1, Hc in Hcfg2, Hcalls2. rewrite Hpt1 in Hcalls2.
  exists s1, s2. repeat split; try assumption; try congruence.
  - rewrite Hcalls1.
    destruct (provisioning_timer s), (ssid_unset (startup_wifi_config s)); reflexivity.
  - rewrite Hcalls2. destruct (ssid_unset (startup_wifi_config s1)); reflexivity.
Qed.

Lemma C3_persisted_credentials_kept_witness :
  exists s1 s2,
    wifi_prov_event_handler WIFI_PROV_END (ending_session home_network wifi_config_zero)
    = Done tt s1 /\
    wifi_config s1 = home_network /\
    existsb is_set_config (new_calls (ending_session home_network wifi_config_zero) s1) = false /\
    wifi_prov_event_handler WIFI_PROV_END s1 = Done tt s2 /\
    wifi_config s2 = wifi_config s1 /\
    existsb is_set_config (new_calls s1 s2) = false.
Proof.
  apply (C3_persisted_credentials_kept (ending_session home_network wifi_config_zero)).
  - unfold handle_valid; cbn. eexists; reflexivity.
  - reflexivity.
Defined.

(** C10: at session end the handler completes, and whenever the station
    configuration read back has no network name it writes the snapshot back,
    whether or not the snapshot has a network name itself; so the
    configuration afterwards is the one read back when that has a network
    name, and the snapshot otherwise. *)
Theorem C10_write_back_unconditional (s : state) :
  handle_valid s ->
  exists s',
    wifi_prov_event_handler WIFI_PROV_END s = Done tt s' /\
    wifi_config s' = (if ssid_unset (wifi_config s) then startup_wifi_config s
                      else wifi_config s) /\
    List.filter is_set_config (new_calls s s')
    = if ssid_unset (wifi_config s)
      then [c_esp_wifi_set_config (startup_wifi_config s)]
      else [].
Proof.
  intros Hv.
  destruct (handler_end_spec s Hv) as (s' & Hrun & _ & _ & _ & Hcfg & _ & _ & _ & _ & _ & Hcalls).
  exists s'. repeat split; try assumption.
  rewrite Hcalls. destruct (ssid_unset (wifi_config s)).
  - rewrite set_config_calls_of_end by exact s. now rewrite timer_calls_not_set_config.
  - destruct (provisioning_timer s), (ssid_unset (startup_wifi_config s)); reflexivity.
Qed.

Lemma C10_write_back_unconditional_witness :
  exists s',
    wifi_prov_event_handler WIFI_PROV_END (ending_session wifi_config_zero wifi_config_zero)
    = Done tt s' /\
    wifi_config s' = wifi_config_zero /\
    List.filter is_set_config (new_calls (ending_session wifi_config_zero wifi_config_zero) s')
    = [c_esp_wifi_set_config wifi_config_zero].
Proof.
  apply (C10_write_back_unconditional (ending_session wifi_config_zero wifi_config_zero)).
  unfold handle_valid; cbn. eexists; reflexivity.
Defined.

(** ** The timeout timer over a session *)

Lemma armed_timers_empty (s : state) : timers s = ∅ -> armed_timers s = 0%nat.
Proof. intros H. unfold armed_timers. rewrite H, map_filter_empty. apply map_size_empty. Qed.

Lemma armed_timers_single (s : state) (h : esp_timer_handle_t) (t : esp_timer) :
  timers s = {[ h := t ]} -> is_Some (timer_armed t) -> armed_timers s = 1%nat.
Proof.
  intros H Ha. unfold armed_timers. rewrite H, map_filter_singleton_True by exact Ha.
  apply map_size_singleton.
Qed.

(** C4: when provisioning is needed, [setup_wifi] completes with exactly one
    timer allocated, armed for the configured period and held in
    [provisioning_timer]; and whatever reaches the program afterwards
    (events, the timer firing, changes of the station configuration), once
    [WIFI_PROV_END] has been handled no timer is allocated, none is armed,
    and [provisioning_timer] is [NULL]. *)
Theorem C4_timer_armed_once_and_released
    (T : Z) (b : board_info) (stored : wifi_config_t) (reconfigure : bool) :
  needs_provisioning stored reconfigure = true ->
  exists s1 h,
    setup_wifi T reconfigure (boot b stored) = Done tt s1 /\
    provisioning_timer s1 = Some h /\
    timers s1 = {[ h := mk_esp_timer cb_provisioning_timer_handler "wifi_prov_timer"
                          (Some (provisioning_timeout_us T)) ]} /\
    size (timers s1) = 1%nat /\
    armed_timers s1 = 1%nat /\
    forall inputs : list input,
    exists s2,
      run (inputs ++ [in_event WIFI_PROV_END]) s1 = Done tt s2 /\
      timers s2 = ∅ /\
      armed_timers s2 = 0%nat /\
      provisioning_timer s2 = None.
Proof.
  intros Hneed.
  destruct (setup_wifi_spec T b stored reconfigure) as (s1 & Hrun & _ & _ & _ & _ & Hcase).
  rewrite Hneed in Hcase. destruct Hcase as ((h & Hpt & Hts) & _).
  exists s1, h. split; [assumption|]. split; [assumption|]. split; [assumption|].
  split; [rewrite Hts; apply map_size_singleton|].
  split; [apply (armed_timers_single s1 h _ Hts); cbn; eauto|].
  intros inputs.
  assert (Hinv : session_inv s1).
  { unfold session_inv. rewrite Hpt, Hts. apply dom_singleton_L. }
  destruct (run_session_inv inputs s1 Hinv) as (sa & Hra & Hinva).
  destruct (handler_end_releases sa Hinva) as (s2 & Hend & Hts2 & Hpt2).
  exists s2. rewrite run_app. unfold bind at 1. rewrite Hra.
  cbn [run deliver]. unfold bind at 1. rewrite Hend.
  split; [reflexivity|]. split; [assumption|]. split; [now apply armed_timers_empty|assumption].
Qed.

Lemma C4_timer_armed_once_and_released_witness :
  exists s1 h,
    setup_wifi 30 false (boot sample_board wifi_config_zero) = Done tt s1 /\
    provisioning_timer s1 = Some h /\
    timers s1 = {[ h := mk_esp_timer cb_provisioning_timer_handler "wifi_prov_timer"
                          (Some (provisioning_timeout_us 30)) ]} /\
    size (timers s1) = 1%nat /\
    armed_timers s1 = 1%nat /\
    forall inputs : list input,
    exists s2,
      run (inputs ++ [in_event WIFI_PROV_END]) s1 = Done tt s2 /\
      timers s2 = ∅ /\
      armed_timers s2 = 0%nat /\
      provisioning_timer s2 = None.
Proof.
  apply (C4_timer_armed_once_and_released 30 sample_board wifi_config_zero false).
  reflexivity.
Defined.

(** ** Credential failures *)

Lemma forallb_rev {A : Type} (f : A -> bool) (l : list A) :
  forallb f (rev l) = forallb f l.
Proof.
  induction l as [|x l IH]; [reflexivity|].
  cbn [rev forallb]. rewrite forallb_app, IH. cbn [forallb].
  now destruct (f x), (forallb f l).
Qed.

Lemma run_failures (reasons : list wifi_prov_sta_fail_reason_t) (s : state) :
  exists s' l,
    run (List.map (fun r => in_event (WIFI_PROV_CRED_FAIL r)) reasons) s = Done tt s' /\
    s' = set_trace (l ++ trace s)%list s /\
    forallb is_log l = true /\
    List.length l = List.length reasons.
Proof.
  revert s. induction reasons as [|r rest IH]; intros s; cbn [List.map run].
  - exists s, []. repeat split. now destruct s.
  - unfold bind at 1. cbn [deliver wifi_prov_event_handler].
    unfold ESP_LOGE, called, modify.
    destruct (IH (set_trace (c_log LOG_ERROR
                 ("provisioning failed: " +:+
                  match r with
                  | WIFI_PROV_STA_AUTH_ERROR => "wifi STA authentication failed"
                  | _ => "wifi AP not found"
                  end) :: trace s) s)) as (s' & l & Hrun & Hs' & Hl & Hlen).
    exists s'. eexists (l ++ [_])%list. split; [exact Hrun|].
    split; [|split].
    + rewrite Hs'. m_simpl. now rewrite <- app_assoc.
    + rewrite forallb_app, Hl. reflexivity.
    + rewrite length_app, Hlen. cbn. lia.
Qed.

(** C5: any number of [WIFI_PROV_CRED_FAIL] events is handled to completion
    with one error log line each and nothing else: no provisioning stop is
    requested, no timer call is made, and the provisioning manager, the
    timers with the period they are armed for, and [provisioning_timer] are
    as they were, like every other part of the state but the call record. *)
Theorem C5_credential_failures_only_logged
    (reasons : list wifi_prov_sta_fail_reason_t) (s : state) :
  exists s',
    run (List.map (fun r => in_event (WIFI_PROV_CRED_FAIL r)) reasons) s = Done tt s' /\
    same_but_trace s s' /\
    prov_mgr s' = prov_mgr s /\
    timers s' = timers s /\
    armed_timers s' = armed_timers s /\
    provisioning_timer s' = provisioning_timer s /\
    forallb is_log (new_calls s s') = true /\
    List.length (new_calls s s') = List.length reasons.
Proof.
  destruct (run_failures reasons s) as (s' & l & Hrun & Hs' & Hl & Hlen).
  assert (Htr : trace s' = (l ++ trace s)%list) by (rewrite Hs'; reflexivity).
  exists s'. split; [assumption|].
  split; [unfold same_but_trace; rewrite Htr; exact Hs'|].
  rewrite (new_calls_app s s' l Htr), forallb_rev, length_rev.
  rewrite Hs'. unfold armed_timers. m_simpl. repeat split; assumption.
Qed.

(** ** The timeout and the single shutdown path *)

(** C6: the timer callback completes with one log line and one stop
    request to the provisioning manager; it leaves the timers,
    [provisioning_timer], the station configuration, the snapshot and the
    reconnect collaborator as they were, and a running manager stays
    initialised with the stop noted. Every event but [WIFI_PROV_END] only
    logs. The handling of [WIFI_PROV_END] makes all its calls, the write of
    the station configuration included, before its single, last call, the
    resume of the reconnect collaborator, which then (when started) holds
    the reconciled configuration. *)
Theorem C6_timeout_only_requests_stop (s : state) :
  (exists s',
     provisioning_timer_handler s = Done tt s' /\
     same_but_mgr s s' /\
     timers s' = timers s /\
     provisioning_timer s' = provisioning_timer s /\
     wifi_config s' = wifi_config s /\
     startup_wifi_config s' = startup_wifi_config s /\
     reconnect s' = reconnect s /\
     prov_mgr s' = match prov_mgr s with
                   | PROV_RUNNING name _ => PROV_RUNNING name true
                   | m => m
                   end /\
     new_calls s s'
     = [c_log LOG_INFO "provisioning timeout"; c_wifi_prov_mgr_stop_provisioning]) /\
  (forall e : wifi_prov_cb_event_t,
     e <> WIFI_PROV_END ->
     exists s',
       wifi_prov_event_handler e s = Done tt s' /\
       same_but_trace s s' /\
       forallb is_log (new_calls s s') = true) /\
  (handle_valid s ->
   exists s' pre,
     wifi_prov_event_handler WIFI_PROV_END s = Done tt s' /\
     new_calls s s' = (pre ++ [c_wifi_reconnect_resume])%list /\
     existsb is_resume pre = false /\
     timers s' = match provisioning_timer s with
                 | Some h => delete h (timers s)
                 | None => timers s
                 end /\
     provisioning_timer s' = None /\
     prov_mgr s' = PROV_UNINIT /\
     wifi_config s' = (if ssid_unset (wifi_config s) then startup_wifi_config s
                       else wifi_config s) /\
     (reconnect s <> RECONNECT_OFF -> reconnect s' = RECONNECT_RESUMED (wifi_config s'))).
Proof.
  split; [|split].
  - eexists. split; [apply timer_handler_spec|].
    split; [reflexivity|]. m_simpl. do 6 (split; [reflexivity|]).
    apply new_calls_rev. reflexivity.
  - intros e He. apply handler_observes, He.
  - intros Hv.
    destruct (handler_end_spec s Hv)
      as (s' & Hrun & Hpt & Hts & _ & Hcfg & _ & _ & Hmgr & Hrc & _ & Hcalls).
    exists s'. eexists. split; [exact Hrun|].
    split; [rewrite Hcalls; rewrite !app_assoc; reflexivity|].
    split; [|repeat split; try assumption].
    + destruct (provisioning_timer s), (ssid_unset (wifi_config s)),
        (ssid_unset (startup_wifi_config s)); reflexivity.
    + intros Hon. rewrite Hrc. destruct (reconnect s); [congruence|reflexivity..].
Qed.

Lemma C6_timeout_only_requests_stop_witness :
  exists s' pre,
    wifi_prov_event_handler WIFI_PROV_END (ending_session wifi_config_zero home_network)
    = Done tt s' /\
    new_calls (ending_session wifi_config_zero home_network) s'
    = (pre ++ [c_wifi_reconnect_resume])%list /\
    existsb is_resume pre = false /\
    timers s' = delete 1%positive (timers (ending_session wifi_config_zero home_network)) /\
    provisioning_timer s' = None /\
    prov_mgr s' = PROV_UNINIT /\
    wifi_config s' = home_network /\
    (RECONNECT_WAITING <> RECONNECT_OFF -> reconnect s' = RECONNECT_RESUMED (wifi_config s')).
Proof.
  apply (proj2 (proj2 (C6_timeout_only_requests_stop
                         (ending_session wifi_config_zero home_network)))).
  unfold handle_valid; cbn. eexists; reflexivity.
Defined.

(** ** After the session has ended *)

(** C9: once [WIFI_PROV_END] has been handled, a further release of the
    timer completes and changes nothing at all; the timer service has no
    timer left to fire, so an expiry is not dispatched and changes nothing
    either; and were the callback still to run, it would complete with its
    log line and a stop request that the deinitialised manager ignores, with
    no timer call and no other change. *)
Theorem C9_timer_inert_after_end (s0 : state) :
  session_inv s0 ->
  exists s,
    wifi_prov_event_handler WIFI_PROV_END s0 = Done tt s /\
    provisioning_timer s = None /\
    timers s = ∅ /\
    provisioning_timer_delete s = Done tt s /\
    (forall h : esp_timer_handle_t, deliver (in_timer_expired h) s = Done tt s) /\
    exists s',
      provisioning_timer_handler s = Done tt s' /\
      same_but_trace s s' /\
      new_calls s s'
      = [c_log LOG_INFO "provisioning timeout"; c_wifi_prov_mgr_stop_provisioning] /\
      existsb is_timer_call (new_calls s s') = false.
Proof.
  intros Hinv.
  destruct (handler_end_spec s0 (session_inv_handle_valid s0 Hinv))
    as (s & Hrun & Hpt & _ & _ & _ & _ & _ & Hmgr & _).
  destruct (handler_end_releases s0 Hinv) as (s_ & Hrun_ & Hts & _).
  rewrite Hrun in Hrun_. injection Hrun_ as <-.
  exists s. split; [assumption|]. split; [assumption|]. split; [assumption|].
  split; [now apply provisioning_timer_delete_none|].
  split.
  - intros h. cbn [deliver]. unfold timer_expired, bind, get.
    now rewrite Hts, lookup_empty.
  - assert (Hcalls : forall s', trace s' = (rev [c_log LOG_INFO "provisioning timeout";
                                                 c_wifi_prov_mgr_stop_provisioning]
                                            ++ trace s)%list ->
                     new_calls s s' = [c_log LOG_INFO "provisioning timeout";
                                       c_wifi_prov_mgr_stop_provisioning])
      by (intros s'; apply new_calls_rev).
    eexists. split; [apply timer_handler_spec|]. rewrite Hmgr.
    split; [|split].
    + unfold same_but_trace. m_simpl. destruct s; cbn in Hmgr; now subst.
    + now apply Hcalls.
    + rewrite Hcalls by reflexivity. reflexivity.
Qed.

Lemma C9_timer_inert_after_end_witness :
  exists s,
    wifi_prov_event_handler WIFI_PROV_END (ending_session wifi_config_zero home_network)
    = Done tt s /\
    provisioning_timer s = None /\
    timers s = ∅ /\
    provisioning_timer_delete s = Done tt s /\
    (forall h : esp_timer_handle_t, deliver (in_timer_expired h) s = Done tt s) /\
    exists s',
      provisioning_timer_handler s = Done tt s' /\
      same_but_trace s s' /\
      new_calls s s'
      = [c_log LOG_INFO "provisioning timeout"; c_wifi_prov_mgr_stop_provisioning] /\
      existsb is_timer_call (new_calls s s') = false.
Proof.
  apply (C9_timer_inert_after_end (ending_session wifi_config_zero home_network)).
  vm_compute. reflexivity.
Defined.

(** ** Strings *)

Lemma length_str_take (n : nat) (s : string) :
  String.length (str_take n s) = Nat.min n (String.length s).
Proof.
  revert s. induction n as [|n IH]; intros [|c s]; cbn; try reflexivity.
  now rewrite IH.
Qed.

Lemma str_take_all (n : nat) (s : string) :
  (String.length s <= n)%nat -> str_take n s = s.
Proof.
  revert s. induction n as [|n IH]; intros [|c s]; cbn; intros H; try reflexivity; try lia.
  rewrite IH; [reflexivity|lia].
Qed.

Lemma length_append (a b : string) :
  String.length (a +:+ b) = (String.length a + String.length b)%nat.
Proof. induction a as [|c a IH]; simpl; [reflexivity|now rewrite IH]. Qed.

Lemma c_str_idem (s : string) : c_str (c_str s) = c_str s.
Proof.
  induction s as [|c s IH]; cbn; [reflexivity|].
  destruct (Ascii.eqb c Ascii.zero) eqn:Hc; cbn; [reflexivity|]. now rewrite Hc, IH.
Qed.

Lemma c_str_take (n : nat) (s : string) :
  c_str s = s -> c_str (str_take n s) = str_take n s.
Proof.
  revert s. induction n as [|n IH]; intros [|c s]; cbn; try reflexivity.
  destruct (Ascii.eqb c Ascii.zero); [discriminate|].
  intros H. injection H as H. now rewrite IH.
Qed.

Lemma c_str_append (a b : string) :
  c_str a = a -> c_str b = b -> c_str (a +:+ b) = a +:+ b.
Proof.
  induction a as [|c a IH]; simpl; [tauto|].
  destruct (Ascii.eqb c Ascii.zero); [discriminate|].
  intros H Hb. injection H as H. now rewrite IH.
Qed.

Lemma hex_char_not_nul (d : Z) : Ascii.eqb (hex_char d) Ascii.zero = false.
Proof.
  unfold hex_char. generalize (Z.to_nat d) as n. intros n.
  do 17 (destruct n as [|n]; [reflexivity|]). reflexivity.
Qed.

Lemma c_str_digits (ds : list Z) : c_str (string_of_digits ds) = string_of_digits ds.
Proof.
  induction ds as [|d ds IH]; cbn [string_of_digits c_str]; [reflexivity|].
  now rewrite hex_char_not_nul, IH.
Qed.

Lemma length_string_of_digits (ds : list Z) :
  String.length (string_of_digits ds) = List.length ds.
Proof. induction ds as [|d ds IH]; simpl; [reflexivity|now rewrite IH]. Qed.

(** ** Hexadecimal digits *)

Lemma hex_char_value_hex_char (d : Z) :
  0 <= d < 16 -> hex_char_value (hex_char d) = Some d.
Proof.
  intros H.
  assert (Hd : d = 0 \/ d = 1 \/ d = 2 \/ d = 3 \/ d = 4 \/ d = 5 \/ d = 6 \/ d = 7 \/
               d = 8 \/ d = 9 \/ d = 10 \/ d = 11 \/ d = 12 \/ d = 13 \/ d = 14 \/ d = 15)
    by lia.
  repeat (destruct Hd as [->|Hd]; [reflexivity|]). now subst.
Qed.

Lemma hex_value_from_digits (ds : list Z) (acc : Z) :
  Forall (fun d => 0 <= d < 16) ds ->
  hex_value_from acc (string_of_digits ds) = Some (digits_value acc ds).
Proof.
  intros H. revert acc. induction H as [|d ds Hd _ IH]; intros acc; [reflexivity|].
  cbn [string_of_digits hex_value_from]. rewrite hex_char_value_hex_char by assumption.
  apply IH.
Qed.

Lemma digits_value_drop (w : nat) (ds : list Z) :
  digits_value 0 (drop_leading_zeros w ds) = digits_value 0 ds.
Proof.
  induction ds as [|d ds IH]; [reflexivity|]. cbn [drop_leading_zeros].
  destruct (d =? 0) eqn:Hd; cbn [andb]; [|reflexivity].
  destruct (w <=? List.length ds)%nat; [|reflexivity].
  apply Z.eqb_eq in Hd. subst d. exact IH.
Qed.

Lemma Forall_drop_leading_zeros (P : Z -> Prop) (w : nat) (ds : list Z) :
  Forall P ds -> Forall P (drop_leading_zeros w ds).
Proof.
  induction 1 as [|d ds Hd Hds IH]; [constructor|]. cbn [drop_leading_zeros].
  destruct ((d =? 0) && (w <=? List.length ds)%nat); [assumption|now constructor].
Qed.

Lemma length_drop_leading_zeros (w : nat) (ds : list Z) :
  (Nat.min w (List.length ds) <= List.length (drop_leading_zeros w ds) <= List.length ds)%nat.
Proof.
  induction ds as [|d ds IH]; cbn [drop_leading_zeros List.length]; [lia|].
  destruct (d =? 0); cbn [andb]; [|cbn [List.length]; lia].
  destruct (w <=? List.length ds)%nat eqn:Hw; [|cbn [List.length]; lia].
  apply Nat.leb_le in Hw. lia.
Qed.

Lemma hex_digit_step (n k : Z) :
  0 <= k ->
  n / 2 ^ k = 16 * (n / 2 ^ (k + 4)) + Z.land (Z.shiftr n k) 15.
Proof.
  intros Hk. rewrite Z.shiftr_div_pow2 by assumption.
  change 15 with (Z.ones 4). rewrite Z.land_ones by lia.
  rewrite Z.pow_add_r by lia. rewrite <- Z.div_div by lia.
  change (2 ^ 4) with 16. apply Z.div_mod. lia.
Qed.

Lemma hex_digit_range (n k : Z) : 0 <= Z.land (Z.shiftr n k) 15 < 16.
Proof.
  change 15 with (Z.ones 4). rewrite Z.land_ones by lia.
  change (2 ^ 4) with 16. apply Z.mod_pos_bound. lia.
Qed.

Ltac digit_fact n i :=
  let j := eval compute in (i + 1) in
  let H := fresh "Hd" in
  pose proof (hex_digit_step n (4 * i) ltac:(lia)) as H;
  change (4 * i + 4) with (4 * j) in H;
  pose proof (hex_digit_range n (4 * i)).

Lemma digits_value_hex_digits64 (n : Z) :
  0 <= n < 2 ^ 64 -> digits_value 0 (hex_digits64 n) = n.
Proof.
  intros Hn. unfold hex_digits64, digits_value. cbn [List.map fold_left].
  digit_fact n 0; digit_fact n 1; digit_fact n 2; digit_fact n 3;
  digit_fact n 4; digit_fact n 5; digit_fact n 6; digit_fact n 7;
  digit_fact n 8; digit_fact n 9; digit_fact n 10; digit_fact n 11;
  digit_fact n 12; digit_fact n 13; digit_fact n 14; digit_fact n 15.
  assert (Hfirst : n / 2 ^ (4 * 0) = n) by (change (2 ^ (4 * 0)) with 1; apply Z.div_1_r).
  assert (Hlast : n / 2 ^ (4 * 16) = 0) by (apply Z.div_small; exact Hn).
  repeat match goal with
         | H : context [n / 2 ^ (4 * ?i)] |- _ => generalize dependent (n / 2 ^ (4 * i))
         end.
  intros. lia.
Qed.

Lemma hex_digits64_range (n : Z) : Forall (fun d => 0 <= d < 16) (hex_digits64 n).
Proof. unfold hex_digits64. cbn [List.map]. repeat constructor; apply hex_digit_range. Qed.

(** [%06llx] denotes the value it renders, in 6 to 16 lowercase
    hexadecimal characters. *)
Lemma hex_value_fmt_0llx (n : Z) :
  0 <= n < 2 ^ 64 -> hex_value (fmt_0llx 6 n) = Some n.
Proof.
  intros Hn. unfold hex_value, fmt_0llx. rewrite Z.mod_small by exact Hn.
  rewrite hex_value_from_digits
    by apply Forall_drop_leading_zeros, hex_digits64_range.
  now rewrite digits_value_drop, digits_value_hex_digits64.
Qed.

Lemma hex_digits64_small (n : Z) :
  0 <= n < 2 ^ 48 ->
  drop_leading_zeros 6 (hex_digits64 n)
  = drop_leading_zeros 6 (List.skipn 4 (hex_digits64 n)).
Proof.
  intros Hn.
  assert (Hz : forall k, 48 <= k -> Z.land (Z.shiftr n k) 15 = 0).
  { intros k Hk. rewrite Z.shiftr_div_pow2 by lia. rewrite Z.div_small; [reflexivity|].
    split; [lia|]. apply Z.lt_le_trans with (2 ^ 48); [lia|].
    apply Z.pow_le_mono_r; lia. }
  unfold hex_digits64. cbn [List.map List.skipn].
  rewrite !Hz by lia. reflexivity.
Qed.

Lemma length_fmt_0llx_48 (n : Z) :
  0 <= n < 2 ^ 48 -> (6 <= String.length (fmt_0llx 6 n) <= 12)%nat.
Proof.
  intros Hn. unfold fmt_0llx.
  rewrite Z.mod_small by (split; [lia|]; apply Z.lt_le_trans with (2 ^ 48); [lia|]; apply Z.pow_le_mono_r; lia).
  rewrite length_string_of_digits. change (Nat.max 6 1) with 6%nat.
  rewrite hex_digits64_small by exact Hn.
  pose proof (length_drop_leading_zeros 6 (List.skipn 4 (hex_digits64 n))) as H.
  unfold hex_digits64 in *. cbn [List.map List.skipn List.length] in H.
  cbn [List.map List.skipn]. lia.
Qed.

(** ** The factory address as a number *)

Lemma byte_to_Z_range (b : byte) : 0 <= byte_to_Z b < 256.
Proof. unfold byte_to_Z. pose proof (Byte.to_N_bounded b). lia. Qed.

Lemma mac_value_six (hw : list byte) :
  List.length hw = 6%nat ->
  mac_value hw = le_decode hw /\ 0 <= le_decode hw < 2 ^ 48.
Proof.
  intros H.
  destruct hw as [|b0 [|b1 [|b2 [|b3 [|b4 [|b5 [|b6 hw]]]]]]]; try discriminate.
  unfold mac_value, mac_object. cbn [firstn List.length skipn repeat app le_decode].
  change (byte_to_Z "000") with 0.
  pose proof (byte_to_Z_range b0). pose proof (byte_to_Z_range b1).
  pose proof (byte_to_Z_range b2). pose proof (byte_to_Z_range b3).
  pose proof (byte_to_Z_range b4). pose proof (byte_to_Z_range b5).
  change (2 ^ 48) with 281474976710656. lia.
Qed.

Lemma drop_leading_zeros_head (w : nat) (ds : list Z) :
  (w < List.length (drop_leading_zeros w ds))%nat ->
  exists d rest, drop_leading_zeros w ds = d :: rest /\ d <> 0.
Proof.
  induction ds as [|d ds IH]; cbn [drop_leading_zeros List.length]; [lia|].
  destruct (d =? 0) eqn:Hd; cbn [andb].
  - destruct (w <=? List.length ds)%nat eqn:Hw; [exact IH|].
    apply Nat.leb_gt in Hw. cbn [List.length]. lia.
  - intros _. exists d, ds. split; [reflexivity|]. now apply Z.eqb_neq.
Qed.

Lemma hex_char_nonzero (d : Z) : 0 <= d < 16 -> d <> 0 -> hex_char d <> "0"%char.
Proof.
  intros H Hnz.
  assert (Hd : d = 1 \/ d = 2 \/ d = 3 \/ d = 4 \/ d = 5 \/ d = 6 \/ d = 7 \/
               d = 8 \/ d = 9 \/ d = 10 \/ d = 11 \/ d = 12 \/ d = 13 \/ d = 14 \/ d = 15)
    by lia.
  repeat (destruct Hd as [->|Hd]; [discriminate|]). now subst.
Qed.

Lemma fmt_0llx_no_extra_zero (n : Z) :
  (6 < String.length (fmt_0llx 6 n))%nat ->
  String.get 0 (fmt_0llx 6 n) <> Some "0"%char.
Proof.
  unfold fmt_0llx. rewrite length_string_of_digits. change (Nat.max 6 1) with 6%nat.
  intros H. pose proof (Forall_drop_leading_zeros _ 6 _ (hex_digits64_range (n mod 2 ^ 64))) as Hr.
  destruct (drop_leading_zeros_head _ _ H) as (d & rest & Heq & Hd).
  rewrite Heq in Hr |- *. cbn [string_of_digits String.get].
  inversion Hr as [|? ? Hd16 _]; subst. intros E. injection E as E.
  now apply (hex_char_nonzero d).
Qed.

Lemma c_str_fmt_0llx (w : nat) (n : Z) : c_str (fmt_0llx w n) = fmt_0llx w n.
Proof. apply c_str_digits. Qed.

(** ** Device identity *)

(** C8, as the code has it: for every project name and every six-byte
    hardware identifier, the identifier is read as a little-endian number
    and rendered by [%06llx], that is in lowercase hexadecimal, padded with
    zeros to six characters and otherwise without leading zeros, hence in 6
    to 12 characters that denote that number; the device name is the first
    32 characters of the project name (cut at 25 characters), ['-'] and that
    rendering, and is all of it when name and rendering together have at
    most 31 characters; the service name is ["PROV_"] followed by the device
    name, in at most 37 characters. *)
Theorem C8_device_identity (project_name : string) (hw : list byte) :
  List.length hw = 6%nat ->
  let mac := mac_value hw in
  let hex := fmt_0llx 6 mac in
  let device_name := device_name_of project_name mac in
  mac = le_decode hw /\
  hex_value hex = Some mac /\
  (6 <= String.length hex <= 12)%nat /\
  ((6 < String.length hex)%nat -> String.get 0 hex <> Some "0"%char) /\
  device_name = str_take 32 (str_take 25 (c_str project_name) +:+ "-" +:+ hex) /\
  (String.length device_name <= 32)%nat /\
  ((String.length (c_str project_name) + String.length hex <= 31)%nat ->
   device_name = c_str project_name +:+ "-" +:+ hex) /\
  service_name_of device_name = "PROV_" +:+ device_name /\
  (String.length (service_name_of device_name) <= 37)%nat.
Proof.
  intros Hlen. destruct (mac_value_six hw Hlen) as (Hmac & Hrange). cbv zeta.
  rewrite Hmac. set (mac := le_decode hw) in *. set (hex := fmt_0llx 6 mac).
  assert (Hhex : (6 <= String.length hex <= 12)%nat) by now apply length_fmt_0llx_48.
  assert (Hname : device_name_of project_name mac
                  = str_take 32 (str_take 25 (c_str project_name) +:+ "-" +:+ hex))
    by reflexivity.
  assert (Hdn : (String.length (device_name_of project_name mac) <= 32)%nat)
    by (rewrite Hname, length_str_take; apply Nat.le_min_l).
  assert (Hnul : c_str (device_name_of project_name mac) = device_name_of project_name mac).
  { rewrite Hname. apply c_str_take, c_str_append.
    - apply c_str_take, c_str_idem.
    - apply (c_str_append "-"); [reflexivity|apply c_str_fmt_0llx]. }
  assert (Hsvc : service_name_of (device_name_of project_name mac)
                 = "PROV_" +:+ device_name_of project_name mac).
  { unfold service_name_of, snprintf. rewrite Hnul. apply str_take_all.
    rewrite length_append. change (String.length "PROV_") with 5%nat.
    change (33 + 5 - 1)%nat with 37%nat. lia. }
  split; [reflexivity|].
  split; [apply hex_value_fmt_0llx; split; [lia|];
          apply Z.lt_le_trans with (2 ^ 48); [lia|]; apply Z.pow_le_mono_r; lia|].
  split; [exact Hhex|].
  split; [apply fmt_0llx_no_extra_zero|].
  split; [exact Hname|].
  split; [exact Hdn|].
  split.
  - intros Hshort. rewrite Hname.
    rewrite (str_take_all 25) by lia.
    apply str_take_all. rewrite !length_append.
    change (String.length "-") with 1%nat. lia.
  - split; [exact Hsvc|]. rewrite Hsvc, length_append.
    change (String.length "PROV_") with 5%nat. lia.
Qed.

Lemma C8_device_identity_witness :
  let hw := [x24; x0a; xc4; x00; x11; x22] in
  let mac := mac_value hw in
  let hex := fmt_0llx 6 mac in
  let device_name := device_name_of "MyApp" mac in
  mac = le_decode hw /\
  hex_value hex = Some mac /\
  (6 <= String.length hex <= 12)%nat /\
  ((6 < String.length hex)%nat -> String.get 0 hex <> Some "0"%char) /\
  device_name = str_take 32 (str_take 25 (c_str "MyApp") +:+ "-" +:+ hex) /\
  (String.length device_name <= 32)%nat /\
  ((String.length (c_str "MyApp") + String.length hex <= 31)%nat ->
   device_name = c_str "MyApp" +:+ "-" +:+ hex) /\
  service_name_of device_name = "PROV_" +:+ device_name /\
  (String.length (service_name_of device_name) <= 37)%nat.
Proof.
  apply (C8_device_identity "MyApp" [x24; x0a; xc4; x00; x11; x22]).
  reflexivity.
Defined.

(** C8 as the specification words it fails on the code. A board whose
    address ends in zero bytes gets fewer than twelve hexadecimal
    characters; the bytes of the address come out in reverse order; and a
    project name of 25 characters leaves room for six of the hexadecimal
    characters only, so the device name holds the full rendering of the
    address in neither byte order. *)
Lemma C8_device_name_counterexample :
  (device_name_of "MyApp" (mac_value [x22; x11; x00; x00; x00; x00]) = "MyApp-001122" /\
   spec_device_name "MyApp" [x22; x11; x00; x00; x00; x00] = "MyApp-221100000000" /\
   device_name_of "MyApp" (mac_value [x22; x11; x00; x00; x00; x00])
   <> spec_device_name "MyApp" [x22; x11; x00; x00; x00; x00] /\
   String.length (fmt_0llx 6 (mac_value [x22; x11; x00; x00; x00; x00])) <> 12%nat) /\
  (device_name_of "MyApp" (mac_value [x24; x0a; xc4; x00; x11; x22]) = "MyApp-221100c40a24" /\
   spec_device_name "MyApp" [x24; x0a; xc4; x00; x11; x22] = "MyApp-240ac4001122" /\
   occurs_in (spec_hex_of_bytes [x24; x0a; xc4; x00; x11; x22])
     (device_name_of "MyApp" (mac_value [x24; x0a; xc4; x00; x11; x22])) = false) /\
  (device_name_of "abcdefghijklmnopqrstuvwxy" (mac_value [x24; x0a; xc4; x00; x11; x22])
   = "abcdefghijklmnopqrstuvwxy-221100" /\
   occurs_in "240ac4001122"
     (device_name_of "abcdefghijklmnopqrstuvwxy" (mac_value [x24; x0a; xc4; x00; x11; x22]))
   = false /\
   occurs_in "221100c40a24"
     (device_name_of "abcdefghijklmnopqrstuvwxy" (mac_value [x24; x0a; xc4; x00; x11; x22]))
   = false).
Proof.
  repeat split; try reflexivity; vm_compute; discriminate.
Qed.

(** ** Further properties of the timer release *)

(** X1: with a valid handle in [provisioning_timer] the release completes
    whether the timer is still armed or has already fired (the result of
    [esp_timer_stop] is not looked at): the timer is no longer allocated,
    every other timer is as it was, the handle is [NULL] and nothing else of
    the state changes but the call record; a further release completes
    without any call and changes nothing. *)
Theorem X1_timer_release_total_and_idempotent (s : state) (h : esp_timer_handle_t) :
  provisioning_timer s = Some h ->
  is_Some (timers s !! h) ->
  exists s',
    provisioning_timer_delete s = Done tt s' /\
    provisioning_timer s' = None /\
    timers s' !! h = None /\
    (forall h', h' <> h -> timers s' !! h' = timers s !! h') /\
    new_calls s s' = [c_esp_timer_stop h; c_esp_timer_delete h] /\
    s' = set_provisioning_timer None (set_timers (timers s') (set_trace (trace s') s)) /\
    provisioning_timer_delete s' = Done tt s'.
Proof.
  intros Hp Hh. eexists. split; [apply (provisioning_timer_delete_some s h Hp Hh)|].
  m_simpl. split; [reflexivity|]. split; [apply lookup_delete_eq|].
  split; [intros h' Hne; now apply lookup_delete_ne|].
  split; [apply new_calls_rev; reflexivity|].
  split; [reflexivity|]. now apply provisioning_timer_delete_none.
Qed.

Lemma X1_timer_release_total_and_idempotent_witness :
  exists s',
    provisioning_timer_delete (ending_session wifi_config_zero home_network) = Done tt s' /\
    provisioning_timer s' = None /\
    timers s' !! 1%positive = None /\
    (forall h', h' <> 1%positive ->
                timers s' !! h' = timers (ending_session wifi_config_zero home_network) !! h') /\
    new_calls (ending_session wifi_config_zero home_network) s'
    = [c_esp_timer_stop 1%positive; c_esp_timer_delete 1%positive] /\
    s' = set_provisioning_timer None
           (set_timers (timers s')
              (set_trace (trace s') (ending_session wifi_config_zero home_network))) /\
    provisioning_timer_delete s' = Done tt s'.
Proof.
  apply (X1_timer_release_total_and_idempotent
           (ending_session wifi_config_zero home_network) 1%positive).
  - reflexivity.
  - eexists; reflexivity.
Defined.

(** ** What every input keeps *)

Lemma stop_requests_cons (c : call) (l : list call) :
  stop_requests (c :: l) = ((if is_stop_request c then 1 else 0) + stop_requests l)%nat.
Proof. unfold stop_requests. cbn [List.filter]. now destruct (is_stop_request c). Qed.

Lemma stop_requests_app (l1 l2 : list call) :
  stop_requests (l1 ++ l2) = (stop_requests l1 + stop_requests l2)%nat.
Proof. unfold stop_requests. now rewrite List.filter_app, length_app. Qed.

Lemma armed_timers_singleton (s : state) (h : esp_timer_handle_t) (t : esp_timer) :
  timers s = {[ h := t ]} ->
  armed_timers s = match timer_armed t with Some _ => 1%nat | None => 0%nat end.
Proof.
  intros H. destruct (timer_armed t) as [us|] eqn:Ha.
  - apply (armed_timers_single s h t H). rewrite Ha. eauto.
  - unfold armed_timers. rewrite H, map_filter_singleton_False.
    + apply map_size_empty.
    + cbn. rewrite Ha. intros [x Hx]. discriminate.
Qed.

Lemma cons_suffix {A : Type} (c : A) (x l t : list A) :
  x = (l ++ t)%list -> c :: x = ((c :: l) ++ t)%list.
Proof. intros ->. reflexivity. Qed.

Lemma nil_suffix {A : Type} (t : list A) : t = ([] ++ t)%list.
Proof. reflexivity. Qed.

(** The trace of the [WIFI_PROV_END] case grows by calls none of which is a
    stop request. *)
Lemma handler_end_trace (s : state) :
  handle_valid s ->
  exists s' l,
    wifi_prov_event_handler WIFI_PROV_END s = Done tt s' /\
    trace s' = (l ++ trace s)%list /\
    stop_requests l = 0%nat.
Proof.
  intros Hv. unfold handle_valid in Hv.
  unfold wifi_prov_event_handler.
  unfold bind at 1. unfold ESP_LOGI, called, modify at 1.
  unfold bind at 1.
  destruct (provisioning_timer s) as [h|] eqn:Hp.
  - rewrite (provisioning_timer_delete_some _ h) by (m_simpl; assumption).
    m_unfold; m_simpl.
    destruct (ssid_unset (wifi_config s)) eqn:Hc;
      [| destruct (ssid_unset (startup_wifi_config s)) eqn:Hs];
      destruct (reconnect s) eqn:Hr; m_simpl; rewrite ?Hr; m_simpl;
      (eexists; eexists; split; [reflexivity|]; m_simpl;
       split; [repeat apply cons_suffix; apply nil_suffix|reflexivity]).
  - rewrite provisioning_timer_delete_none by (m_simpl; assumption).
    m_unfold; m_simpl.
    destruct (ssid_unset (wifi_config s)) eqn:Hc;
      [| destruct (ssid_unset (startup_wifi_config s)) eqn:Hs];
      destruct (reconnect s) eqn:Hr; m_simpl; rewrite ?Hr; m_simpl;
      (eexists; eexists; split; [reflexivity|]; m_simpl;
       split; [repeat apply cons_suffix; apply nil_suffix|reflexivity]).
Qed.

Lemma handler_log_trace (e : wifi_prov_cb_event_t) (s : state) :
  e <> WIFI_PROV_END ->
  exists s' l,
    wifi_prov_event_handler e s = Done tt s' /\
    s' = set_trace (l ++ trace s)%list s /\
    forallb is_log l = true.
Proof.
  intros He. destruct s as [pt su ts wc ws wst pm rc bd tr].
  destruct e; try congruence; m_unfold; m_simpl;
    (eexists; eexists; split; [reflexivity|]; split;
     [unfold set_trace; m_simpl; f_equal;
      first [apply nil_suffix | apply cons_suffix, nil_suffix]|reflexivity]).
Qed.

Lemma stop_requests_logs (l : list call) : forallb is_log l = true -> stop_requests l = 0%nat.
Proof.
  induction l as [|c l IH]; [reflexivity|]. cbn [forallb]. intros H.
  apply andb_true_iff in H as [Hc Hl]. rewrite stop_requests_cons, IH by assumption.
  now destruct c.
Qed.

(** What the firing of a timer does to a session: nothing unless the timer is
    the armed timer of the session, which it disarms before the callback
    makes its stop request. *)
Lemma timer_expired_keeps (h : esp_timer_handle_t) (s : state) :
  session_inv s ->
  exists s',
    timer_expired h s = Done tt s' /\
    session_inv s' /\
    s' = set_prov_mgr (prov_mgr s') (set_timers (timers s') (set_trace (trace s') s)) /\
    (stop_requests (trace s') + armed_timers s'
     <= stop_requests (trace s) + armed_timers s)%nat.
Proof.
  intros Hinv. unfold timer_expired. unfold bind at 1, get at 1.
  destruct (timers s !! h) as [t|] eqn:Ht;
    [|exists s; repeat split; [assumption|now destruct s|lia]].
  destruct (timer_armed t) as [us|] eqn:Ha;
    [|exists s; repeat split; [assumption|now destruct s|lia]].
  unfold bind at 1, modify at 1. destruct (timer_callback t) eqn:Hcb. unfold run_callback.
  rewrite timer_handler_spec. eexists. split; [reflexivity|]. m_simpl.
  assert (Hh : h ∈ dom (timers s)) by (apply elem_of_dom; eauto).
  unfold session_inv in Hinv |- *. m_simpl.
  destruct (provisioning_timer s) as [h0|] eqn:Hp;
    [|rewrite Hinv in Hh; now apply not_elem_of_empty in Hh].
  rewrite Hinv in Hh. apply elem_of_singleton in Hh. subst h0.
  destruct (dom_singleton_inv_L _ _ Hinv) as (t0 & Hts).
  assert (t0 = t) by (rewrite Hts, lookup_singleton_eq in Ht; congruence). subst t0.
  split; [|split].
  - rewrite Hts, insert_singleton_eq. apply dom_singleton_L.
  - destruct s; reflexivity.
  - rewrite (armed_timers_singleton s h t Hts), Ha.
    erewrite (armed_timers_singleton _ h (set_timer_armed None t))
      by (m_simpl; rewrite Hts; apply insert_singleton_eq).
    rewrite !stop_requests_cons. cbn. lia.
Qed.

(** Every input is processed to completion and keeps: the session invariant,
    the snapshot, the board, whether Wi-Fi was started by the program, a
    started reconnect collaborator, and the bound on stop requests plus
    armed timers. *)
Lemma deliver_keeps (i : input) (s : state) :
  session_inv s ->
  exists s',
    deliver i s = Done tt s' /\
    session_inv s' /\
    startup_wifi_config s' = startup_wifi_config s /\
    board s' = board s /\
    wifi_started s' = wifi_started s /\
    (reconnect s <> RECONNECT_OFF -> reconnect s' <> RECONNECT_OFF) /\
    (stop_requests (trace s') + armed_timers s'
     <= stop_requests (trace s) + armed_timers s)%nat.
Proof.
  intros Hi. destruct i as [e|h|cfg]; cbn [deliver].
  - assert (e = WIFI_PROV_END \/ e <> WIFI_PROV_END) as [->|He]
      by (destruct e; (now left) || (now right)).
    + pose proof (session_inv_handle_valid s Hi) as Hv.
      destruct (handler_end_spec s Hv)
        as (s' & Hrun & Hpt & _ & Hsu & _ & _ & Hst & _ & Hrc & Hbd & _).
      destruct (handler_end_releases s Hi) as (s1 & Hrun1 & Hts & _).
      destruct (handler_end_trace s Hv) as (s2 & l & Hrun2 & Htr & Hl).
      rewrite Hrun in Hrun1, Hrun2. injection Hrun1 as <-. injection Hrun2 as <-.
      exists s'. split; [assumption|].
      split; [unfold session_inv; rewrite Hts, Hpt; apply dom_empty_L|].
      repeat (split; [assumption|]). split.
      * intros Hon. rewrite Hrc. destruct (reconnect s); congruence.
      * rewrite (armed_timers_empty s' Hts), Htr, stop_requests_app, Hl. lia.
    + destruct (handler_log_trace e s He) as (s' & l & Hrun & Hs' & Hl).
      exists s'. split; [assumption|]. rewrite Hs'. unfold session_inv, armed_timers. m_simpl.
      split; [exact Hi|]. do 3 (split; [reflexivity|]). split; [tauto|].
      rewrite stop_requests_app, (stop_requests_logs l Hl). lia.
  - destruct (timer_expired_keeps h s Hi) as (s' & Hrun & Hi' & Hs' & Hle).
    exists s'. split; [assumption|]. split; [assumption|].
    rewrite Hs' at 1 2 3 4. m_simpl. do 3 (split; [reflexivity|]). split; [tauto|exact Hle].
  - eexists; split; [reflexivity|]. unfold session_inv, armed_timers. m_simpl.
    split; [exact Hi|]. do 3 (split; [reflexivity|]). split; [tauto|lia].
Qed.

Lemma run_keeps (inputs : list input) (s : state) :
  session_inv s ->
  exists s',
    run inputs s = Done tt s' /\
    session_inv s' /\
    startup_wifi_config s' = startup_wifi_config s /\
    board s' = board s /\
    wifi_started s' = wifi_started s /\
    (reconnect s <> RECONNECT_OFF -> reconnect s' <> RECONNECT_OFF) /\
    (stop_requests (trace s') + armed_timers s'
     <= stop_requests (trace s) + armed_timers s)%nat.
Proof.
  revert s. induction inputs as [|i rest IH]; intros s Hi; cbn [run].
  - exists s. repeat split; try assumption; try tauto. lia.
  - destruct (deliver_keeps i s Hi) as (s1 & Hrun & Hi1 & Hsu & Hbd & Hst & Hrc & Hle).
    destruct (IH s1 Hi1) as (s' & Hrun' & Hi' & Hsu' & Hbd' & Hst' & Hrc' & Hle').
    exists s'. unfold bind. rewrite Hrun. split; [assumption|]. split; [assumption|].
    repeat split; try congruence; try tauto. lia.
Qed.

(** ** The calls of [setup_wifi] *)

Lemma setup_wifi_calls (T : Z) (b : board_info) (stored : wifi_config_t) (reconfigure : bool) :
  let device_name := device_name_of (project_name_of b) (mac_value (efuse_mac b)) in
  exists s',
    setup_wifi T reconfigure (boot b stored) = Done tt s' /\
    stop_requests (trace s') = 0%nat /\
    List.filter is_set_hostname (trace s') = [c_tcpip_adapter_set_hostname device_name] /\
    existsb (is_log_of msg_check_failed) (trace s')
    = match app_project_name b with Some _ => false | None => true end /\
    first_precedes is_reconnect_start is_connect_trigger (rev (trace s')) = true /\
    first_precedes is_get_config is_prov_mgr_call (rev (trace s')) = true.
Proof.
  unfold setup_wifi, project_name_of.
  destruct b as [pn mac]; destruct pn as [name|]; cbn [app_project_name efuse_mac].
  all: repeat m_step.
  all: destruct (ssid_unset stored) eqn:Hs; destruct reconfigure; cbn [negb orb].
  all: repeat m_step.
  all: try (erewrite bind_done
              by (apply esp_timer_start_once_idle; [apply lookup_insert_eq|reflexivity]);
            cbv beta zeta; m_simpl).
  all: eexists; (split; [m_call|]); m_simpl.
  all: generalize (fmt_d T); intros timeout_text.
  all: match goal with
       | |- context [device_name_of ?n ?m] => generalize (device_name_of n m); intros dn
       end.
  all: generalize (fresh (dom (∅ : gmap positive esp_timer))); intros h.
  all: repeat split; reflexivity.
Qed.

Lemma setup_wifi_session_inv (T : Z) (b : board_info) (stored : wifi_config_t)
    (reconfigure : bool) :
  exists s1,
    setup_wifi T reconfigure (boot b stored) = Done tt s1 /\
    session_inv s1 /\
    startup_wifi_config s1 = stored /\
    board s1 = b /\
    wifi_started s1 = negb (needs_provisioning stored reconfigure) /\
    reconnect s1 <> RECONNECT_OFF /\
    stop_requests (trace s1) = 0%nat /\
    armed_timers s1 = (if needs_provisioning stored reconfigure then 1 else 0)%nat.
Proof.
  destruct (setup_wifi_spec T b stored reconfigure) as (s1 & Hrun & Hsu & _ & _ & Hbd & Hcase).
  destruct (setup_wifi_calls T b stored reconfigure) as (s1' & Hrun' & Hstop & _).
  rewrite Hrun in Hrun'. injection Hrun' as <-.
  exists s1. split; [assumption|]. unfold session_inv.
  destruct (needs_provisioning stored reconfigure).
  - destruct Hcase as ((h & Hpt & Hts) & _ & Hrc & Hst & _).
    rewrite Hpt, Hts, Hrc, Hst. split; [apply dom_singleton_L|].
    repeat split; try assumption; try discriminate.
    apply (armed_timers_single s1 h _ Hts). cbn. eauto.
  - destruct Hcase as (Hpt & Hts & _ & Hrc & Hst & _).
    rewrite Hpt, Hts, Hrc, Hst. split; [apply dom_empty_L|].
    repeat split; try assumption; try discriminate.
    now apply armed_timers_empty.
Qed.

(** ** Over a whole session *)

(** X2: the snapshot [startup_wifi_config] taken by [setup_wifi] is the
    stored configuration, and no event, timer expiry or change of the
    station configuration afterwards modifies it; every such input is
    processed to completion, and the program starts Wi-Fi itself only in the
    branch without provisioning. *)
Theorem X2_snapshot_never_modified
    (T : Z) (b : board_info) (stored : wifi_config_t) (reconfigure : bool)
    (inputs : list input) :
  exists s1 s2,
    setup_wifi T reconfigure (boot b stored) = Done tt s1 /\
    run inputs s1 = Done tt s2 /\
    startup_wifi_config s1 = stored /\
    startup_wifi_config s2 = stored /\
    board s2 = b /\
    wifi_started s2 = negb (needs_provisioning stored reconfigure).
Proof.
  destruct (setup_wifi_session_inv T b stored reconfigure)
    as (s1 & Hrun & Hinv & Hsu & Hbd & Hst & _).
  destruct (run_keeps inputs s1 Hinv) as (s2 & Hrun2 & _ & Hsu2 & Hbd2 & Hst2 & _).
  exists s1, s2. repeat split; congruence.
Qed.

(** X3: a device that boots with a stored network name never ends a session
    without one: whatever reaches the program between [setup_wifi] and
    [WIFI_PROV_END], the end handling completes, leaves the configuration
    read back when it has a network name and the stored configuration
    otherwise, and resumes the reconnect collaborator with that
    configuration. *)
Theorem X3_stored_credentials_survive
    (T : Z) (b : board_info) (stored : wifi_config_t) (reconfigure : bool)
    (inputs : list input) :
  ssid_unset stored = false ->
  exists s1 s2 s3,
    setup_wifi T reconfigure (boot b stored) = Done tt s1 /\
    run inputs s1 = Done tt s2 /\
    wifi_prov_event_handler WIFI_PROV_END s2 = Done tt s3 /\
    wifi_config s3 = (if ssid_unset (wifi_config s2) then stored else wifi_config s2) /\
    ssid_unset (wifi_config s3) = false /\
    reconnect s3 = RECONNECT_RESUMED (wifi_config s3).
Proof.
  intros Hstored.
  destruct (setup_wifi_session_inv T b stored reconfigure)
    as (s1 & Hrun & Hinv & Hsu & _ & _ & Hrc & _).
  destruct (run_keeps inputs s1 Hinv) as (s2 & Hrun2 & Hinv2 & Hsu2 & _ & _ & Hrc2 & _).
  destruct (handler_end_spec s2 (session_inv_handle_valid s2 Hinv2))
    as (s3 & Hrun3 & _ & _ & _ & Hcfg & _ & _ & _ & Hrc3 & _).
  rewrite Hsu2, Hsu in Hcfg.
  exists s1, s2, s3. do 4 (split; [assumption|]). split.
  - rewrite Hcfg. destruct (ssid_unset (wifi_config s2)) eqn:Hc; assumption.
  - rewrite Hrc3. specialize (Hrc2 Hrc). destruct (reconnect s2); [congruence|reflexivity..].
Qed.

Lemma X3_stored_credentials_survive_witness :
  exists s1 s2 s3,
    setup_wifi 30 true (boot sample_board home_network) = Done tt s1 /\
    run [in_event WIFI_PROV_START; in_stack_config wifi_config_zero;
         in_timer_expired 1%positive] s1 = Done tt s2 /\
    wifi_prov_event_handler WIFI_PROV_END s2 = Done tt s3 /\
    wifi_config s3
    = (if ssid_unset (wifi_config s2) then home_network else wifi_config s2) /\
    ssid_unset (wifi_config s3) = false /\
    reconnect s3 = RECONNECT_RESUMED (wifi_config s3).
Proof.
  apply (X3_stored_credentials_survive 30 sample_board home_network true
           [in_event WIFI_PROV_START; in_stack_config wifi_config_zero;
            in_timer_expired 1%positive]).
  reflexivity.
Defined.

(** X4: over any sequence of inputs after [setup_wifi], the provisioning
    manager is asked to stop at most once (the timer is armed once, as a
    one-shot timer, and only its firing asks for the stop), and never when
    [setup_wifi] did not start provisioning. *)
Theorem X4_at_most_one_stop_request
    (T : Z) (b : board_info) (stored : wifi_config_t) (reconfigure : bool)
    (inputs : list input) :
  exists s1 s2,
    setup_wifi T reconfigure (boot b stored) = Done tt s1 /\
    run inputs s1 = Done tt s2 /\
    (stop_requests (trace s2) <= 1)%nat /\
    (needs_provisioning stored reconfigure = false -> stop_requests (trace s2) = 0%nat).
Proof.
  destruct (setup_wifi_session_inv T b stored reconfigure)
    as (s1 & Hrun & Hinv & _ & _ & _ & _ & Hstop & Harmed).
  destruct (run_keeps inputs s1 Hinv) as (s2 & Hrun2 & _ & _ & _ & _ & _ & Hle).
  exists s1, s2. split; [assumption|]. split; [assumption|].
  rewrite Hstop, Harmed in Hle.
  destruct (needs_provisioning stored reconfigure); split; try lia; discriminate.
Qed.


(** X6: for a configured timeout of 0 to 2147 seconds the product
    [APP_WIFI_PROV_TIMEOUT_S * 1000000] fits an [int], and the timer is
    armed for exactly that many microseconds. *)
Theorem X6_timeout_period_in_range
    (T : Z) (b : board_info) (stored : wifi_config_t) (reconfigure : bool) :
  0 <= T <= 2147 ->
  needs_provisioning stored reconfigure = true ->
  exists s1 h,
    setup_wifi T reconfigure (boot b stored) = Done tt s1 /\
    provisioning_timer s1 = Some h /\
    timers s1 = {[ h := mk_esp_timer cb_provisioning_timer_handler "wifi_prov_timer"
                          (Some (T * 1000000)) ]}.
Proof.
  intros HT Hneed.
  destruct (setup_wifi_spec T b stored reconfigure) as (s1 & Hrun & _ & _ & _ & _ & Hcase).
  rewrite Hneed in Hcase. destruct Hcase as ((h & Hpt & Hts) & _).
  exists s1, h. split; [assumption|]. split; [assumption|]. rewrite Hts.
  unfold provisioning_timeout_us, to_uint64, wrap_int32.
  change (2 ^ 31) with 2147483648. change (2 ^ 32) with 4294967296.
  change (2 ^ 64) with 18446744073709551616.
  rewrite (Z.mod_small (T * 1000000 + 2147483648)) by lia.
  replace (T * 1000000 + 2147483648 - 2147483648) with (T * 1000000) by lia.
  now rewrite Z.mod_small by lia.
Qed.

Lemma X6_timeout_period_in_range_witness :
  exists s1 h,
    setup_wifi 2147 false (boot sample_board wifi_config_zero) = Done tt s1 /\
    provisioning_timer s1 = Some h /\
    timers s1 = {[ h := mk_esp_timer cb_provisioning_timer_handler "wifi_prov_timer"
                          (Some (2147 * 1000000)) ]}.
Proof.
  apply (X6_timeout_period_in_range 2147 sample_board wifi_config_zero false).
  - lia.
  - reflexivity.
Defined.

(** ** Further properties of the device name *)

Lemma append_inj_l (a x y : string) : a +:+ x = a +:+ y -> x = y.
Proof. induction a as [|c a IH]; simpl; intros H; [assumption|]. injection H as H. auto. Qed.

Lemma str_take_append (a b : string) (n : nat) :
  str_take (String.length a + n) (a +:+ b) = a +:+ str_take n b.
Proof. induction a as [|c a IH]; simpl; [reflexivity|]. now rewrite IH. Qed.

Lemma device_name_of_eq (project_name : string) (mac : Z) :
  device_name_of project_name mac
  = str_take 32 (str_take 25 (c_str project_name) +:+ "-" +:+ fmt_0llx 6 mac).
Proof. reflexivity. Qed.

Lemma device_name_untruncated (project_name : string) (mac : Z) :
  (String.length (c_str project_name) <= 25)%nat ->
  (String.length (c_str project_name) + String.length (fmt_0llx 6 mac) <= 31)%nat ->
  device_name_of project_name mac = c_str project_name +:+ "-" +:+ fmt_0llx 6 mac.
Proof.
  intros H25 H31. rewrite device_name_of_eq, (str_take_all 25) by assumption.
  apply str_take_all. rewrite !length_append. change (String.length "-") with 1%nat. lia.
Qed.

Lemma c_str_device_name (project_name : string) (mac : Z) :
  c_str (device_name_of project_name mac) = device_name_of project_name mac.
Proof.
  rewrite device_name_of_eq. apply c_str_take, c_str_append.
  - apply c_str_take, c_str_idem.
  - apply (c_str_append "-"); [reflexivity|apply c_str_fmt_0llx].
Qed.

Lemma service_name_of_device_name (project_name : string) (mac : Z) :
  service_name_of (device_name_of project_name mac)
  = "PROV_" +:+ device_name_of project_name mac.
Proof.
  unfold service_name_of, snprintf. rewrite c_str_device_name. apply str_take_all.
  rewrite length_append, device_name_of_eq, length_str_take.
  change (String.length "PROV_") with 5%nat. change (33 + 5 - 1)%nat with 37%nat. lia.
Qed.

(** ** Start-up *)

(** C7: on the freshly loaded program [setup_wifi] completes, and it leaves
    the provisioning manager serving exactly when the stored configuration
    has no network name or reconfiguration is requested. In that case the
    manager serves under ["PROV_"] followed by the device name, one timer is
    allocated and armed for the configured period, and the reconnect
    collaborator is started but not resumed. Otherwise the manager is
    deinitialised, no timer call is made, Wi-Fi is started and the
    reconnect collaborator is resumed with the stored configuration. *)
Theorem C7_setup_provisions_iff_needed
    (T : Z) (b : board_info) (stored : wifi_config_t) (reconfigure : bool) :
  let device_name := device_name_of (project_name_of b) (mac_value (efuse_mac b)) in
  exists s',
    setup_wifi T reconfigure (boot b stored) = Done tt s' /\
    ((exists name stop, prov_mgr s' = PROV_RUNNING name stop)
     <-> ssid_unset stored = true \/ reconfigure = true) /\
    startup_wifi_config s' = stored /\
    wifi_config s' = stored /\
    if needs_provisioning stored reconfigure
    then
      prov_mgr s' = PROV_RUNNING ("PROV_" +:+ device_name) false /\
      (exists h,
         provisioning_timer s' = Some h /\
         timers s' = {[ h := mk_esp_timer cb_provisioning_timer_handler "wifi_prov_timer"
                              (Some (provisioning_timeout_us T)) ]}) /\
      reconnect s' = RECONNECT_WAITING /\
      existsb is_resume (trace s') = false
    else
      prov_mgr s' = PROV_UNINIT /\
      provisioning_timer s' = None /\
      timers s' = ∅ /\
      existsb is_timer_call (trace s') = false /\
      wifi_started s' = true /\
      reconnect s' = RECONNECT_RESUMED stored.
Proof.
  intros device_name.
  destruct (setup_wifi_spec T b stored reconfigure)
    as (s' & Hrun & Hsu & Hcfg & _ & _ & Hcase).
  fold device_name in Hcase.
  exists s'. split; [assumption|]. split; [|split; [assumption|split; [assumption|]]].
  - unfold needs_provisioning in Hcase.
    destruct (ssid_unset stored), reconfigure; cbn [negb orb] in Hcase.
    1-3: destruct Hcase as (_ & Hmgr & _); rewrite Hmgr; split; eauto.
    destruct Hcase as (_ & _ & Hmgr & _). rewrite Hmgr. split.
    + intros (name & stop & H). discriminate.
    + intros [H|H]; discriminate.
  - destruct (needs_provisioning stored reconfigure).
    + destruct Hcase as (Ht & Hmgr & Hrc & _ & Hres).
      unfold device_name in Hmgr. rewrite service_name_of_device_name in Hmgr.
      now repeat split.
    + destruct Hcase as (Hpt & Hts & Hmgr & Hrc & Hst & Htc). now repeat split.
Qed.

Lemma byte_to_Z_inj (a b : byte) : byte_to_Z a = byte_to_Z b -> a = b.
Proof.
  unfold byte_to_Z. intros H. apply N2Z.inj in H.
  pose proof (Byte.of_to_N a) as Ha. rewrite H, Byte.of_to_N in Ha. congruence.
Qed.

Lemma le_decode_nonneg (l : list byte) : 0 <= le_decode l.
Proof.
  induction l as [|x l IH]; cbn [le_decode]; [lia|].
  pose proof (byte_to_Z_range x). lia.
Qed.

Lemma le_decode_inj (l1 l2 : list byte) :
  List.length l1 = List.length l2 -> le_decode l1 = le_decode l2 -> l1 = l2.
Proof.
  revert l2. induction l1 as [|x l1 IH]; intros [|y l2]; cbn [List.length le_decode];
    try discriminate; [reflexivity|].
  intros Hlen H. injection Hlen as Hlen.
  pose proof (byte_to_Z_range x). pose proof (byte_to_Z_range y).
  assert (byte_to_Z x = byte_to_Z y /\ le_decode l1 = le_decode l2) as [Hb Hr] by lia.
  f_equal; [now apply byte_to_Z_inj|now apply IH].
Qed.

(** X7: for a project name of at most 19 characters, boards with different
    six-byte addresses get different device names: the device name
    determines the address. *)
Theorem X7_device_name_injective (project_name : string) (hw1 hw2 : list byte) :
  List.length hw1 = 6%nat ->
  List.length hw2 = 6%nat ->
  (String.length (c_str project_name) <= 19)%nat ->
  device_name_of project_name (mac_value hw1) = device_name_of project_name (mac_value hw2) ->
  hw1 = hw2.
Proof.
  intros H1 H2 Hname Heq.
  destruct (mac_value_six hw1 H1) as (Hm1 & Hr1).
  destruct (mac_value_six hw2 H2) as (Hm2 & Hr2).
  rewrite Hm1, Hm2 in Heq.
  pose proof (length_fmt_0llx_48 _ Hr1) as Hl1.
  pose proof (length_fmt_0llx_48 _ Hr2) as Hl2.
  rewrite !device_name_untruncated in Heq by lia.
  apply append_inj_l, (append_inj_l "-") in Heq.
  assert (H64 : forall n, 0 <= n < 2 ^ 48 -> 0 <= n < 2 ^ 64).
  { intros n Hn. split; [lia|]. apply Z.lt_le_trans with (2 ^ 48); [lia|].
    apply Z.pow_le_mono_r; lia. }
  pose proof (hex_value_fmt_0llx _ (H64 _ Hr1)) as Hv1.
  pose proof (hex_value_fmt_0llx _ (H64 _ Hr2)) as Hv2.
  rewrite Heq, Hv2 in Hv1. injection Hv1 as Hv.
  apply le_decode_inj; congruence.
Qed.

Lemma X7_device_name_injective_witness :
  [x24; x0a; xc4; x00; x11; x22] = [x24; x0a; xc4; x00; x11; x22].
Proof.
  apply (X7_device_name_injective "MyApp"
           [x24; x0a; xc4; x00; x11; x22] [x24; x0a; xc4; x00; x11; x22]).
  - reflexivity.
  - reflexivity.
  - cbn. lia.
  - reflexivity.
Defined.

(** X8: for a project name of 25 characters or more, the device name keeps
    the first 25 characters of the name, ['-'] and only the first six
    characters of the hexadecimal rendering; so two addresses whose
    renderings agree on their first six characters get the same device
    name. *)
Theorem X8_long_name_keeps_six_hex_characters (project_name : string) (mac1 mac2 : Z) :
  (25 <= String.length (c_str project_name))%nat ->
  device_name_of project_name mac1
  = str_take 25 (c_str project_name) +:+ "-" +:+ str_take 6 (fmt_0llx 6 mac1) /\
  (str_take 6 (fmt_0llx 6 mac1) = str_take 6 (fmt_0llx 6 mac2) ->
   device_name_of project_name mac1 = device_name_of project_name mac2).
Proof.
  intros Hlen.
  assert (Hname : forall mac,
             device_name_of project_name mac
             = str_take 25 (c_str project_name) +:+ "-" +:+ str_take 6 (fmt_0llx 6 mac)).
  { intros mac. rewrite device_name_of_eq.
    assert (H25 : String.length (str_take 25 (c_str project_name)) = 25%nat)
      by (rewrite length_str_take; lia).
    change 32%nat with (25 + 7)%nat. rewrite <- H25 at 1.
    rewrite str_take_append. reflexivity. }
  split; [apply Hname|]. intros Heq. now rewrite !Hname, Heq.
Qed.

Lemma X8_long_name_keeps_six_hex_characters_witness :
  device_name_of "abcdefghijklmnopqrstuvwxyz" (mac_value [x24; x0a; xc4; x00; x11; x22])
  = device_name_of "abcdefghijklmnopqrstuvwxyz" (mac_value [xff; xee; xdd; x00; x11; x22]).
Proof.
  apply (X8_long_name_keeps_six_hex_characters "abcdefghijklmnopqrstuvwxyz"
           (mac_value [x24; x0a; xc4; x00; x11; x22])
           (mac_value [xff; xee; xdd; x00; x11; x22])).
  - cbn. lia.
  - reflexivity.
Defined.

(** ** A repeated end of session *)

(** X10: handling [WIFI_PROV_END] a second time completes and changes
    nothing but the call record: the configuration, the timers, the handle,
    the manager and the reconnect collaborator are as the first handling
    left them, and no timer call is made. *)
Theorem X10_end_handling_idempotent (s : state) :
  handle_valid s ->
  exists s1 s2,
    wifi_prov_event_handler WIFI_PROV_END s = Done tt s1 /\
    wifi_prov_event_handler WIFI_PROV_END s1 = Done tt s2 /\
    same_but_trace s1 s2 /\
    existsb is_timer_call (new_calls s1 s2) = false.
Proof.
  intros Hv.
  destruct (handler_end_spec s Hv)
    as (s1 & Hrun1 & Hpt1 & _ & Hsu1 & Hcfg1 & Hws1 & _ & Hmgr1 & Hrc1 & _ & _).
  assert (Hv1 : handle_valid s1) by (unfold handle_valid; now rewrite Hpt1).
  destruct (handler_end_spec s1 Hv1)
    as (s2 & Hrun2 & Hpt2 & Hts2 & Hsu2 & Hcfg2 & Hws2 & Hst2 & Hmgr2 & Hrc2 & Hbd2 & Hcalls2).
  rewrite Hpt1 in Hts2, Hcalls2.
  assert (Hcfg : wifi_config s2 = wifi_config s1).
  { rewrite Hcfg2, Hcfg1, Hsu1.
    destruct (ssid_unset (wifi_config s)) eqn:Hc; [|now rewrite Hc].
    now destruct (ssid_unset (startup_wifi_config s)). }
  assert (Hrc : reconnect s2 = reconnect s1).
  { rewrite Hrc2, Hcfg, Hrc1. now destruct (reconnect s). }
  exists s1, s2. split; [assumption|]. split; [assumption|]. split.
  - unfold same_but_trace, set_trace.
    destruct s1 as [pt1 su1 ts1 wc1 ws1 wst1 pm1 rc1 bd1 tr1].
    destruct s2 as [pt2 su2 ts2 wc2 ws2 wst2 pm2 rc2 bd2 tr2].
    cbn [provisioning_timer startup_wifi_config timers wifi_config wifi_storage
         wifi_started prov_mgr reconnect board trace] in *.
    congruence.
  - rewrite Hcalls2.
    destruct (ssid_unset (wifi_config s1)), (ssid_unset (startup_wifi_config s1)); reflexivity.
Qed.

Lemma X10_end_handling_idempotent_witness :
  exists s1 s2,
    wifi_prov_event_handler WIFI_PROV_END (ending_session wifi_config_zero wifi_config_zero)
    = Done tt s1 /\
    wifi_prov_event_handler WIFI_PROV_END s1 = Done tt s2 /\
    same_but_trace s1 s2 /\
    existsb is_timer_call (new_calls s1 s2) = false.
Proof.
  apply (X10_end_handling_idempotent (ending_session wifi_config_zero wifi_config_zero)).
  unfold handle_valid; cbn. eexists; reflexivity.
Defined.
